(** * Skill validation and packaging: a shallow embedding

    The development follows the three Python modules of the repository:
    [skill_utils.py] (path safety, header parsing, field validators, the
    result accumulator, file reading), [validate_skill.py] (the validation
    engine) and [package_skill.py] (manifest, file collector, packager).

    Conventions.
    - A Python [str] is a Rocq [string]; every [ascii] stands for one code
      point below 256, so [length] is Python's [len].
    - A value produced by the YAML loader is a [value]; operations that
      Python resolves dynamically ([len], truthiness, [re.match] on a
      non-string) are written out with the exception they raise.
    - Code that touches the file system runs in the monad [M]: it reads an
      immutable [world], appends to a log of [event]s and may raise.
    - [yaml.safe_load] (PyYAML) and [repr] of containers are not part of the
      repository and are taken as parameters. *)

From Stdlib Require Import String Ascii List Bool Arith NArith ZArith Lia.
From Stdlib Require Import DecimalString.
Import ListNotations.

Set Warnings "-register-all".

Open Scope list_scope.
Open Scope string_scope.

(* ================================================================== *)
(** * Python strings *)
(* ================================================================== *)

Module PyStr.

(** Characters that string literals cannot spell directly. *)
Definition nl : string := String "010"%char EmptyString.
Definition dq : string := String "034"%char EmptyString.

(** [str.isspace] on the code points below 256:
    TAB..CR, FS..US, SPACE, NEL and NBSP. *)
Definition is_space (c : ascii) : bool :=
  let n := N_of_ascii c in
  (((9 <=? n) && (n <=? 13)) || ((28 <=? n) && (n <=? 32))
   || (n =? 133) || (n =? 160))%N.

Fixpoint lstrip (s : string) : string :=
  match s with
  | EmptyString => EmptyString
  | String c s' => if is_space c then lstrip s' else s
  end.

Fixpoint rstrip (s : string) : string :=
  match s with
  | EmptyString => EmptyString
  | String c s' =>
      match rstrip s' with
      | EmptyString => if is_space c then EmptyString else String c EmptyString
      | r => String c r
      end
  end.

(** [s.strip()] *)
Definition strip (s : string) : string := rstrip (lstrip s).

(** [s.startswith(p)] *)
Fixpoint startswith (p s : string) : bool :=
  match p, s with
  | EmptyString, _ => true
  | String _ _, EmptyString => false
  | String a p', String b s' => Ascii.eqb a b && startswith p' s'
  end.

(** [s.endswith(p)] *)
Fixpoint endswith (p s : string) : bool :=
  String.eqb p s ||
  match s with
  | EmptyString => false
  | String _ s' => endswith p s'
  end.

(** [sub in s] *)
Fixpoint contains (sub s : string) : bool :=
  startswith sub s ||
  match s with
  | EmptyString => false
  | String _ s' => contains sub s'
  end.

(** [s[n:]] *)
Fixpoint drop (n : nat) (s : string) : string :=
  match n, s with
  | O, _ => s
  | S _, EmptyString => EmptyString
  | S n', String _ s' => drop n' s'
  end.

(** Every character of [s] satisfies [f]. *)
Fixpoint forallb_str (f : ascii -> bool) (s : string) : bool :=
  match s with
  | EmptyString => true
  | String c s' => f c && forallb_str f s'
  end.

(** [str.lower] on the code points below 256: A-Z and the Latin-1 capitals
    (0xC0..0xDE except the multiplication sign) move up by 32. *)
Definition lower_char (c : ascii) : ascii :=
  let n := N_of_ascii c in
  if (((65 <=? n) && (n <=? 90))
      || ((192 <=? n) && (n <=? 222) && negb (n =? 215)))%N
  then ascii_of_N (n + 32) else c.

Fixpoint lower (s : string) : string :=
  match s with
  | EmptyString => EmptyString
  | String c s' => String (lower_char c) (lower s')
  end.

(** [s.split(sep)] for a one-character separator: never an empty list. *)
Fixpoint split (sep : ascii) (s : string) : list string :=
  match s with
  | EmptyString => [EmptyString]
  | String c s' =>
      if Ascii.eqb c sep then EmptyString :: split sep s'
      else match split sep s' with
           | [] => [String c EmptyString]
           | h :: t => String c h :: t
           end
  end.

(** [sep.join(l)] *)
Definition join (sep : string) (l : list string) : string :=
  String.concat sep l.

(** [str(n)] for a non-negative and for an arbitrary integer. *)
Definition of_nat (n : nat) : string :=
  NilZero.string_of_uint (Nat.to_uint n).
Definition of_N (n : N) : string :=
  NilZero.string_of_uint (N.to_uint n).
Definition of_Z (z : Z) : string :=
  NilZero.string_of_int (Z.to_int z).

(** [sorted] on strings: insertion sort by code points. *)
Fixpoint insert_sorted (x : string) (l : list string) : list string :=
  match l with
  | [] => [x]
  | y :: l' => if String.leb x y then x :: l else y :: insert_sorted x l'
  end.

Definition sorted (l : list string) : list string :=
  fold_right insert_sorted [] l.

End PyStr.

(* ================================================================== *)
(** * Python values, exceptions, outcomes *)
(* ================================================================== *)

(** What [yaml.safe_load] can build from the JSON-like core of YAML.  A
    float keeps only what the code can observe: whether it is non-zero and
    its [str]. A mapping keeps its insertion order. *)
Inductive value : Type :=
| VNone
| VBool (b : bool)
| VInt (z : Z)
| VFloat (nonzero : bool) (repr : string)
| VStr (s : string)
| VList (l : list value)
| VDict (d : list (value * value)).

Definition dict : Type := list (value * value).

(** The exception classes of [skill_utils.py] and the interpreter's own
    that the code can meet.  The message is [str(e)]; for interpreter
    exceptions it is CPython's wording and nothing depends on it. *)
Inductive exn : Type :=
| SkillError (msg : string)
| SkillValidationError (msg : string)
| SkillPackagingError (msg : string)
| ValueError (msg : string)
| TypeError (msg : string)
| AttributeError (msg : string)
| OSError (msg : string)
| RuntimeError (msg : string)
| UnicodeDecodeError (msg : string)
| YAMLError (msg : string).

Definition exn_str (e : exn) : string :=
  match e with
  | SkillError m | SkillValidationError m | SkillPackagingError m
  | ValueError m | TypeError m | AttributeError m | OSError m
  | RuntimeError m | UnicodeDecodeError m | YAMLError m => m
  end.

(** [isinstance(e, SkillError)]: the base class and its two subclasses. *)
Definition is_SkillError (e : exn) : bool :=
  match e with
  | SkillError _ | SkillValidationError _ | SkillPackagingError _ => true
  | _ => false
  end.

Inductive outcome (A : Type) : Type :=
| Ok (a : A)
| Raise (e : exn).
Arguments Ok {A} a.
Arguments Raise {A} e.

Definition rbind {A B} (r : outcome A) (f : A -> outcome B) : outcome B :=
  match r with
  | Ok a => f a
  | Raise e => Raise e
  end.

Module PyVal.
Import PyStr.

(** [type(v).__name__] *)
Definition type_name (v : value) : string :=
  match v with
  | VNone => "NoneType"
  | VBool _ => "bool"
  | VInt _ => "int"
  | VFloat _ _ => "float"
  | VStr _ => "str"
  | VList _ => "list"
  | VDict _ => "dict"
  end.

(** [bool(v)] *)
Definition truthy (v : value) : bool :=
  match v with
  | VNone => false
  | VBool b => b
  | VInt z => negb (Z.eqb z 0)
  | VFloat nz _ => nz
  | VStr s => negb (String.eqb s "")
  | VList l => match l with [] => false | _ => true end
  | VDict d => match d with [] => false | _ => true end
  end.

(** [len(v)] *)
Definition py_len (v : value) : outcome nat :=
  match v with
  | VStr s => Ok (String.length s)
  | VList l => Ok (List.length l)
  | VDict d => Ok (List.length d)
  | _ => Raise (TypeError ("object of type '" ++ type_name v
                           ++ "' has no len()"))
  end.

(** The argument of [re.match] / [re.search] must be a string. *)
Definition re_subject (v : value) : outcome string :=
  match v with
  | VStr s => Ok s
  | _ => Raise (TypeError "expected string or bytes-like object")
  end.

(** [v.strip()]: only strings have the method. *)
Definition py_strip (v : value) : outcome string :=
  match v with
  | VStr s => Ok (strip s)
  | _ => Raise (AttributeError ("'" ++ type_name v
                                ++ "' object has no attribute 'strip'"))
  end.

(** [hash(v)] succeeds: lists and dicts are unhashable. *)
Definition hashable (v : value) : bool :=
  match v with
  | VList _ | VDict _ => false
  | _ => true
  end.

(** [k == s] for a string [s]: only an equal string compares equal. *)
Definition key_is (s : string) (k : value) : bool :=
  match k with
  | VStr t => String.eqb s t
  | _ => false
  end.

(** [s in d] *)
Definition has_key (s : string) (d : dict) : bool :=
  existsb (fun kv => key_is s (fst kv)) d.

(** [d.get(s)], [None] of Rocq when the key is absent. *)
Fixpoint lookup (s : string) (d : dict) : option value :=
  match d with
  | [] => None
  | (k, v) :: d' => if key_is s k then Some v else lookup s d'
  end.

(** [d.get(s, default)] *)
Definition get (s : string) (default : value) (d : dict) : value :=
  match lookup s d with
  | Some v => v
  | None => default
  end.

End PyVal.

(* ================================================================== *)
(** * skill_utils.py: regular expressions and field validators *)
(* ================================================================== *)

Module SkillUtils.
Import PyStr PyVal.

(** ** The three regular expressions *)

(** The class [[a-z0-9-]]. *)
Definition name_char (c : ascii) : bool :=
  let n := N_of_ascii c in
  (((97 <=? n) && (n <=? 122)) || ((48 <=? n) && (n <=? 57)) || (n =? 45))%N.

(** [$] without [re.MULTILINE]: at the end of the string, or just before a
    newline that is the last character. *)
Definition at_eol (s : string) : bool :=
  match s with
  | EmptyString => true
  | String c EmptyString => Ascii.eqb c "010"%char
  | _ => false
  end.

(** The greedy run of [[a-z0-9-]*]: what is left after it. *)
Fixpoint skip_name_chars (s : string) : string :=
  match s with
  | EmptyString => EmptyString
  | String c s' => if name_char c then skip_name_chars s' else s
  end.

(** [re.match] of the pattern [^[a-z0-9-]+$] succeeds.  The run needs one
    character at least; giving characters back cannot help [$], which only
    stands before a newline or the end. *)
Definition re_match_name (s : string) : bool :=
  match s with
  | EmptyString => false
  | String c _ => name_char c && at_eol (skip_name_chars s)
  end.

(** A match of [<[^>]+>] starting at the head of [s]. *)
Definition tag_here (s : string) : bool :=
  match s with
  | String "<"%char (String c rest) =>
      negb (Ascii.eqb c ">"%char) && contains ">" rest
  | _ => false
  end.

(** [re.search] of the pattern [<[^>]+>] succeeds. *)
Fixpoint re_search_xml_tag (s : string) : bool :=
  tag_here s ||
  match s with
  | EmptyString => false
  | String _ s' => re_search_xml_tag s'
  end.

(** Cut [s] at the first occurrence of [sep]. *)
Fixpoint split_first (sep s : string) : option (string * string) :=
  if startswith sep s then Some (EmptyString, drop (String.length sep) s)
  else match s with
       | EmptyString => None
       | String c s' =>
           match split_first sep s' with
           | Some (a, b) => Some (String c a, b)
           | None => None
           end
       end.

Definition delimiter_line : string := "---" ++ nl.
Definition closing_delimiter : string := nl ++ "---" ++ nl.

(** The groups of [re.match] with [re.DOTALL] for the pattern
    [^---\n( .*? )\n---\n( .* )$] (written here with spaces inside the
    groups): the lazy first group stops at the first closing delimiter, the
    greedy second group takes all the rest. *)
Definition re_match_frontmatter (content : string)
  : option (string * string) :=
  if startswith delimiter_line content
  then split_first closing_delimiter (drop 4 content)
  else None.

(** ** validate_skill_name *)

Definition validate_skill_name (name : value) : outcome (bool * string) :=
  if negb (truthy name) then Ok (false, "Skill name is required") else
  rbind (py_len name) (fun n =>
  if Nat.ltb 64 n then
    Ok (false, "Skill name too long (" ++ of_nat n ++ " chars, max 64)")
  else
  rbind (re_subject name) (fun s =>
  if negb (re_match_name s) then
    Ok (false, "Skill name must be lowercase with hyphens only (a-z, 0-9, -)")
  else if contains "anthropic" s || contains "claude" s then
    Ok (false, "Skill name cannot contain " ++ dq ++ "anthropic" ++ dq
               ++ " or " ++ dq ++ "claude" ++ dq)
  else if contains "<" s || contains ">" s then
    Ok (false, "Skill name cannot contain XML tags")
  else Ok (true, ""))).

(** ** validate_skill_description *)

Definition validate_skill_description (description : value)
  : outcome (bool * string) :=
  if negb (truthy description) then Ok (false, "Description is required") else
  rbind (py_strip description) (fun stripped =>
  if String.eqb stripped "" then
    Ok (false, "Description cannot be only whitespace")
  else
  rbind (py_len description) (fun n =>
  if Nat.ltb 1024 n then
    Ok (false, "Description too long (" ++ of_nat n ++ " chars, max 1024)")
  else
  rbind (re_subject description) (fun s =>
  if re_search_xml_tag s then
    Ok (false, "Description cannot contain XML tags")
  else Ok (true, "")))).

(** ** parse_skill_file *)

Definition malformed_frontmatter_message : string :=
  "Invalid frontmatter format. Must be:" ++ nl
  ++ "---" ++ nl
  ++ "name: skill-name" ++ nl
  ++ "description: ..." ++ nl
  ++ "---" ++ nl
  ++ "Body content...".

Section Parser.

(** [yaml.safe_load]: the parsed document, or the exception PyYAML raises
    (a [YAMLError] for a syntax error). *)
Variable yaml_safe_load : string -> outcome value.

Definition parse_skill_file (content : string) : outcome (dict * string) :=
  if String.eqb (strip content) "" then
    Raise (SkillValidationError "SKILL.md file is empty")
  else if negb (startswith "---" content) then
    Raise (SkillValidationError
             "SKILL.md must start with YAML frontmatter (---)")
  else
    match re_match_frontmatter content with
    | None => Raise (SkillValidationError malformed_frontmatter_message)
    | Some (frontmatter_str, body) =>
        match yaml_safe_load frontmatter_str with
        | Raise (YAMLError e) =>
            Raise (SkillValidationError ("Invalid YAML in frontmatter: " ++ e))
        | Raise e => Raise e
        | Ok (VDict frontmatter) => Ok (frontmatter, strip body)
        | Ok _ =>
            Raise (SkillValidationError
                     "Frontmatter must be a YAML dictionary/object")
        end
    end.

End Parser.

(** ** ValidationResult *)

Record ValidationResult : Type := mkResult {
  errors : list string;
  warnings : list string
}.

Definition new_result : ValidationResult := mkResult [] [].

Definition add_error (r : ValidationResult) (message : string)
  : ValidationResult :=
  mkResult (errors r ++ [message])%list (warnings r).

Definition add_warning (r : ValidationResult) (message : string)
  : ValidationResult :=
  mkResult (errors r) (warnings r ++ [message])%list.

Definition is_valid (r : ValidationResult) : bool :=
  Nat.eqb (List.length (errors r)) 0.


(** [__str__].  The three pictographs are beyond code point 255 and are
    spelled by their UTF-8 bytes; no length is ever taken of this text. *)
Definition bullet (message : string) : string := "  - " ++ message.

Definition result_str (r : ValidationResult) : string :=
  let lines1 :=
    match errors r with
    | [] => []
    | _ => "❌ Errors:" :: map bullet (errors r)
    end in
  let lines2 :=
    match warnings r with
    | [] => lines1
    | _ => (lines1
            ++ (match lines1 with [] => [] | _ => [""] end)
            ++ "⚠️  Warnings:" :: map bullet (warnings r))%list
    end in
  let lines3 :=
    match lines2 with
    | [] => ["✅ Validation passed"]
    | _ => lines2
    end in
  join nl lines3.

End SkillUtils.

(* ================================================================== *)
(** * The file system and the effect monad *)
(* ================================================================== *)

Module FS.
Import PyStr.

(** ** Pure paths ([pathlib.PurePosixPath]) *)

(** A path is a root flag and its components; [.] and empty components are
    dropped when a string is parsed, [..] is kept. *)
Record Path : Type := mkPath {
  absolute : bool;
  parts : list string
}.

Definition part_kept (c : string) : bool :=
  negb (String.eqb c "") && negb (String.eqb c ".").

(** [Path(s)] *)
Definition of_string (s : string) : Path :=
  mkPath (startswith "/" s) (filter part_kept (split "/" s)).

(** [str(p)] *)
Definition to_string (p : Path) : string :=
  if absolute p then "/" ++ join "/" (parts p)
  else match parts p with
       | [] => "."
       | _ => join "/" (parts p)
       end.

(** [p / q] *)
Definition div (p q : Path) : Path :=
  if absolute q then q else mkPath (absolute p) (parts p ++ parts q)%list.

(** [p / name] for a name given as a string. *)
Definition child (p : Path) (name : string) : Path := div p (of_string name).

(** [p.name] *)
Definition name (p : Path) : string := last (parts p) "".

(** [p.parent] *)
Definition parent (p : Path) : Path :=
  mkPath (absolute p) (removelast (parts p)).

(** [l] without the prefix [pre], when it starts with it. *)
Fixpoint strip_prefix (pre l : list string) : option (list string) :=
  match pre, l with
  | [], _ => Some l
  | _ :: _, [] => None
  | a :: pre', b :: l' => if String.eqb a b then strip_prefix pre' l' else None
  end.

(** [p.relative_to(base)]; [None] stands for the [ValueError]. *)
Definition relative_to (p base : Path) : option Path :=
  if Bool.eqb (absolute p) (absolute base) then
    match strip_prefix (parts base) (parts p) with
    | Some rel => Some (mkPath false rel)
    | None => None
    end
  else None.

(** ** The tree *)

(** What reading a file as UTF-8 text gives. *)
Inductive read_outcome : Type :=
| Text (s : string)
| NotUtf8
| Unreadable (why : string).

(** A node of the tree.  [mode] holds the permission bits of [st_mode];
    [size] is [st_size] in bytes; [Special] is a FIFO, socket or device. *)
Inductive node : Type :=
| File (mode : N) (size : N) (content : read_outcome)
| Dir (mode : N) (entries : list (string * node))
| Link (target : string)
| Special (mode : N).

Fixpoint assoc (name : string) (es : list (string * node)) : option node :=
  match es with
  | [] => None
  | (n, x) :: es' => if String.eqb name n then Some x else assoc name es'
  end.

(** The node at a canonical path (no link is followed). *)
Fixpoint lookup_node (n : node) (p : list string) : option node :=
  match p with
  | [] => Some n
  | c :: p' =>
      match n with
      | Dir _ es =>
          match assoc c es with
          | Some m => lookup_node m p'
          | None => None
          end
      | _ => None
      end
  end.

Definition is_dir_node (o : option node) : bool :=
  match o with Some (Dir _ _) => true | _ => false end.

Definition is_file_node (o : option node) : bool :=
  match o with Some (File _ _ _) => true | _ => false end.

(** Path resolution, component by component from the canonical path [cur].
    [strict] is the kernel's walk ([stat]): every prefix must be an existing
    directory.  Without it this is [os.path.realpath] as [Path.resolve()]
    calls it: a missing component is kept as it is written and [..] drops
    the last component.  [fuel] bounds the links followed; [None] is the
    loop error. *)
Fixpoint walk (fs : node) (strict : bool) (fuel : nat)
  : list string -> list string -> option (list string) :=
  fix go (cur rest : list string) {struct rest} : option (list string) :=
    match rest with
    | [] => Some cur
    | c :: rest' =>
        if strict && negb (is_dir_node (lookup_node fs cur)) then None
        else if String.eqb c "" || String.eqb c "." then go cur rest'
        else if String.eqb c ".." then go (removelast cur) rest'
        else
          match lookup_node fs (cur ++ [c])%list with
          | Some (Link target) =>
              match fuel with
              | O => None
              | S fuel' =>
                  let t := of_string target in
                  walk fs strict fuel'
                       (if absolute t then [] else cur)
                       (parts t ++ rest')%list
              end
          | Some _ => go (cur ++ [c])%list rest'
          | None => if strict then None else go (cur ++ [c])%list rest'
          end
    end.

(** The kernel gives up after this many links in one resolution. *)
Definition max_symlinks : nat := 40.

(** Relative paths of everything below a directory node as [rglob] with the
    pattern [*] yields them: the entries of the directory, then the same
    for every sub-directory; a link to a directory is not entered (only a
    [Dir] node has anything below it). *)
Fixpoint rglob_rel (n : node) : list (list string) :=
  match n with
  | Dir _ es =>
      (map (fun e : string * node => [fst e]) es
       ++ flat_map (fun e : string * node =>
                      let (nm, sub) := e in
                      map (cons nm) (rglob_rel sub)) es)%list
  | _ => []
  end.

(** ** The world and the monad *)

(** What the code does to its environment, in order. *)
Inductive event : Type :=
| EvStat (p : Path)
| EvScandir (p : Path)
| EvResolve (p : Path)
| EvReadText (p : Path)
| EvClock
| EvMkdir (p : Path)
| EvWriteJson (p : Path) (manifest : dict)
| EvZipOpen (p : Path)
| EvZipWritestr (zip : Path) (arcname : string) (manifest : dict)
| EvZipWrite (zip src arcname : Path)
| EvCopy2 (src dst : Path).

(** An event that creates or changes something on disk. *)
Definition is_output (ev : event) : bool :=
  match ev with
  | EvMkdir _ | EvWriteJson _ _ | EvZipOpen _ | EvZipWritestr _ _ _
  | EvZipWrite _ _ _ | EvCopy2 _ _ => true
  | _ => false
  end.

(** The environment of one run: the tree, the working directory (a
    canonical path), [sys.platform], the text [datetime.utcnow().isoformat()]
    gives, and the faults of the output device ([Some msg]: the operation
    raises [OSError(msg)]). *)
Record world : Type := mkWorld {
  root : node;
  cwd : list string;
  sys_platform : string;
  utcnow_isoformat : string;
  io_fault : event -> option string
}.

Definition M (A : Type) : Type := world -> list event * outcome A.

Definition ret {A} (a : A) : M A := fun _ => ([], Ok a).

Definition bind {A B} (m : M A) (f : A -> M B) : M B :=
  fun w =>
    match m w with
    | (l1, Ok a) => let (l2, r) := f a w in ((l1 ++ l2)%list, r)
    | (l1, Raise e) => (l1, Raise e)
    end.

Definition raise {A} (e : exn) : M A := fun _ => ([], Raise e).

Definition lift {A} (r : outcome A) : M A := fun _ => ([], r).

Definition ask : M world := fun w => ([], Ok w).

Definition tell (ev : event) : M unit := fun _ => ([ev], Ok tt).

(** [try: m except <handles> as e: h e] *)
Definition try_except {A} (m : M A) (handles : exn -> bool) (h : exn -> M A)
  : M A :=
  fun w =>
    match m w with
    | (l1, Raise e) =>
        if handles e then let (l2, r) := h e w in ((l1 ++ l2)%list, r)
        else (l1, Raise e)
    | ok => ok
    end.

(** [try: a = m except <handles> as e: ...] with the two continuations
    told apart by the caller. *)
Definition attempt {A} (m : M A) (handles : exn -> bool) : M (A + exn) :=
  fun w =>
    match m w with
    | (l, Ok a) => (l, Ok (inl a))
    | (l, Raise e) => if handles e then (l, Ok (inr e)) else (l, Raise e)
    end.

Declare Scope monad_scope.
Delimit Scope monad_scope with monad.
Notation "x <- m ;; k" := (bind m (fun x => k))
  (at level 61, m at next level, right associativity) : monad_scope.
Notation "m ;;; k" := (bind m (fun _ => k))
  (at level 61, right associativity) : monad_scope.
Open Scope monad_scope.

(** [for x in l: f x] *)
Fixpoint for_each {A} (l : list A) (f : A -> M unit) : M unit :=
  match l with
  | [] => ret tt
  | x :: l' => f x ;;; for_each l' f
  end.

(** ** File-system primitives ([pathlib.Path]) *)

(** The components the kernel walks for [p]. *)
Definition from_root (w : world) (p : Path) : list string :=
  if absolute p then parts p else (cwd w ++ parts p)%list.

(** [os.stat(p)]: the node [p] leads to, links followed. *)
Definition os_stat (w : world) (p : Path) : option node :=
  match walk (root w) true max_symlinks [] (from_root w p) with
  | Some q => lookup_node (root w) q
  | None => None
  end.

Definition stat_exists (w : world) (p : Path) : bool :=
  match os_stat w p with Some _ => true | None => false end.

(** [p.exists()] *)
Definition exists_ (p : Path) : M bool :=
  w <- ask ;; tell (EvStat p) ;;; ret (stat_exists w p).

(** [p.is_file()] *)
Definition is_file (p : Path) : M bool :=
  w <- ask ;; tell (EvStat p) ;;; ret (is_file_node (os_stat w p)).

(** [p.is_dir()] *)
Definition is_dir (p : Path) : M bool :=
  w <- ask ;; tell (EvStat p) ;;; ret (is_dir_node (os_stat w p)).

Definition not_found (p : Path) : exn :=
  OSError ("[Errno 2] No such file or directory: '" ++ to_string p ++ "'").

(** [p.stat().st_mode], permission bits. *)
Definition st_mode (p : Path) : M N :=
  w <- ask ;; tell (EvStat p) ;;;
  match os_stat w p with
  | Some (File mode _ _) | Some (Dir mode _) | Some (Special mode) => ret mode
  | _ => raise (not_found p)
  end.

(** [p.stat().st_size]; only the size of a regular file is modelled, the
    code asks for no other. *)
Definition st_size (p : Path) : M N :=
  w <- ask ;; tell (EvStat p) ;;;
  match os_stat w p with
  | Some (File _ size _) => ret size
  | Some _ => ret 0%N
  | None => raise (not_found p)
  end.

(** Text mode with universal newlines: CR LF and a lone CR become LF. *)
Fixpoint universal_newlines (s : string) : string :=
  match s with
  | EmptyString => EmptyString
  | String c s' =>
      if Ascii.eqb c "013"%char then
        match s' with
        | String "010"%char _ => universal_newlines s'
        | _ => String "010"%char (universal_newlines s')
        end
      else String c (universal_newlines s')
  end.

(** [p.read_text(encoding=utf-8)] *)
Definition read_text (p : Path) : M string :=
  w <- ask ;; tell (EvReadText p) ;;;
  match os_stat w p with
  | Some (File _ _ (Text s)) => ret (universal_newlines s)
  | Some (File _ _ NotUtf8) =>
      raise (UnicodeDecodeError "'utf-8' codec can't decode byte")
  | Some (File _ _ (Unreadable why)) => raise (OSError why)
  | Some (Dir _ _) =>
      raise (OSError ("[Errno 21] Is a directory: '" ++ to_string p ++ "'"))
  | Some _ => raise (OSError "cannot read a special file")
  | None => raise (not_found p)
  end.

(** The entries of the directory [p] leads to. *)
Definition scandir (w : world) (p : Path) : option (list (string * node)) :=
  match os_stat w p with
  | Some (Dir _ es) => Some es
  | _ => None
  end.

(** [list(p.glob(pattern))] for the patterns [*.py] and [*.md]: the entries
    whose name ends with [suffix]; nothing when [p] is no directory. *)
Definition glob_suffix (p : Path) (suffix : string) : M (list Path) :=
  w <- ask ;; tell (EvScandir p) ;;;
  match scandir w p with
  | Some es =>
      ret (map (fun e => mkPath (absolute p) (parts p ++ [fst e])%list)
               (filter (fun e => endswith suffix (fst e)) es))
  | None => ret []
  end.

(** [list(p.rglob(pattern))] for the pattern [*]. *)
Definition rglob_all (p : Path) : M (list Path) :=
  w <- ask ;; tell (EvScandir p) ;;;
  match os_stat w p with
  | Some n =>
      ret (map (fun rel => mkPath (absolute p) (parts p ++ rel)%list)
               (rglob_rel n))
  | None => ret []
  end.

(** [any(p.iterdir())]: a path object is always true, so this asks for one
    entry; [iterdir] raises when [p] is no directory. *)
Definition any_iterdir (p : Path) : M bool :=
  w <- ask ;; tell (EvScandir p) ;;;
  match os_stat w p with
  | Some (Dir _ es) => ret (match es with [] => false | _ => true end)
  | Some _ =>
      raise (OSError ("[Errno 20] Not a directory: '" ++ to_string p ++ "'"))
  | None => raise (not_found p)
  end.


(** An output operation: logged, and failing when the device says so. *)
Definition output (ev : event) : M unit :=
  w <- ask ;; tell ev ;;;
  match io_fault w ev with
  | Some msg => raise (OSError msg)
  | None => ret tt
  end.

End FS.

(* ================================================================== *)
(** * skill_utils.py: the functions that touch the file system *)
(* ================================================================== *)

Module SkillFiles.
Import PyStr PyVal SkillUtils FS.

(** ** safe_path *)


(** ** find_skill_file *)

Definition find_skill_file (path : Path) : M (option Path) :=
  e <- exists_ path ;;
  if negb e then ret None else
  f <- is_file path ;;
  if f && String.eqb (name path) "SKILL.md" then ret (Some path) else
  d <- is_dir path ;;
  if d then
    let skill_file := child path "SKILL.md" in
    e' <- exists_ skill_file ;;
    if e' then ret (Some skill_file) else ret None
  else ret None.

(** ** read_file_safe *)

(** The default of [max_size]: 10 MiB. *)
Definition default_max_size : N := 10 * 1024 * 1024.

Definition read_file_safe (file_path : Path) (max_size : N) : M string :=
  e <- exists_ file_path ;;
  if negb e then
    raise (SkillError ("File not found: " ++ to_string file_path)) else
  f <- is_file file_path ;;
  if negb f then
    raise (SkillError ("Not a file: " ++ to_string file_path)) else
  size <- st_size file_path ;;
  if (max_size <? size)%N then
    raise (SkillError ("File too large: " ++ of_N size ++ " bytes (max "
                       ++ of_N max_size ++ " bytes)")) else
  try_except (read_text file_path) (fun _ => true)
    (fun e =>
       match e with
       | UnicodeDecodeError _ =>
           raise (SkillError ("File is not valid UTF-8: "
                              ++ to_string file_path))
       | _ =>
           raise (SkillError ("Error reading file " ++ to_string file_path
                              ++ ": " ++ exn_str e))
       end).

(** ** format_path *)

Definition format_path (path : Path) (relative : option Path) : string :=
  match relative with
  | Some base =>
      match relative_to path base with
      | Some rel => to_string rel
      | None => to_string path
      end
  | None => to_string path
  end.

End SkillFiles.

(* ================================================================== *)
(** * validate_skill.py *)
(* ================================================================== *)

Module Validate.
Import PyStr PyVal SkillUtils FS SkillFiles.

(** [str(v)] of a scalar as an f-string prints it; lists and dicts print
    through [repr], which is passed in. *)
Definition py_str (py_repr_container : value -> string) (v : value)
  : string :=
  match v with
  | VNone => "None"
  | VBool true => "True"
  | VBool false => "False"
  | VInt z => of_Z z
  | VFloat _ r => r
  | VStr s => s
  | VList _ | VDict _ => py_repr_container v
  end.

(** ** The checks of validate_skill, in source order *)

Definition expected_fields : list string :=
  ["name"; "description"; "tools"; "model"].

Definition valid_tools : list string :=
  ["Bash"; "Read"; "Write"; "Edit"; "Glob"; "Grep"; "WebFetch"; "WebSearch"].

Definition valid_models : list string :=
  ["sonnet"; "opus"; "haiku"; "inherit"].

Definition recommended_sections : list (string * string) :=
  [("when to use", "when to use this skill");
   ("instruction", "step-by-step instructions");
   ("example", "concrete examples")].

Definition mem (x : string) (l : list string) : bool :=
  existsb (String.eqb x) l.

(** Required field [name]. *)
Definition check_name (frontmatter : dict) (result : ValidationResult)
  : outcome ValidationResult :=
  if negb (has_key "name" frontmatter) then
    Ok (add_error result
          ("Required field " ++ dq ++ "name" ++ dq
           ++ " missing from frontmatter"))
  else
    rbind (validate_skill_name (get "name" VNone frontmatter))
      (fun '(is_valid, error_msg) =>
         if negb is_valid then
           Ok (add_error result ("Invalid skill name: " ++ error_msg))
         else Ok result).

(** Required field [description]. *)
Definition check_description (frontmatter : dict) (result : ValidationResult)
  : outcome ValidationResult :=
  if negb (has_key "description" frontmatter) then
    Ok (add_error result
          ("Required field " ++ dq ++ "description" ++ dq
           ++ " missing from frontmatter"))
  else
    rbind (validate_skill_description (get "description" VNone frontmatter))
      (fun '(is_valid, error_msg) =>
         if negb is_valid then
           Ok (add_error result ("Invalid description: " ++ error_msg))
         else Ok result).

(** [set(frontmatter.keys()) - expected_fields]: a key that is no string
    equals none of the four names. *)
Definition unexpected_keys (frontmatter : dict) : list value :=
  filter (fun k => match k with
                   | VStr s => negb (mem s expected_fields)
                   | _ => true
                   end)
         (map fst frontmatter).

(** The keys as strings, when all of them are. *)
Fixpoint all_strings (l : list value) : option (list string) :=
  match l with
  | [] => Some []
  | VStr s :: l' =>
      match all_strings l' with
      | Some r => Some (s :: r)
      | None => None
      end
  | _ :: _ => None
  end.

(** Unexpected frontmatter fields.  [sorted] and [join] want strings: a key
    of another type makes one of them raise [TypeError]. *)
Definition check_unexpected (strict : bool) (frontmatter : dict)
  (result : ValidationResult) : outcome ValidationResult :=
  match unexpected_keys frontmatter with
  | [] => Ok result
  | unexpected =>
      match all_strings unexpected with
      | None =>
          Raise (TypeError "sequence item: expected str instance")
      | Some names =>
          let msg := "Unexpected frontmatter fields: "
                     ++ join ", " (sorted names) in
          if strict then Ok (add_error result msg)
          else Ok (add_warning result msg)
      end
  end.

(** Body content. *)
Definition check_body (strict : bool) (body : string)
  (result : ValidationResult) : ValidationResult :=
  if String.eqb body "" then
    let msg := "SKILL.md body is empty (no content after frontmatter)" in
    if strict then add_error result msg else add_warning result msg
  else if Nat.ltb (String.length body) 100 then
    add_warning result
      ("SKILL.md body is very short (" ++ of_nat (String.length body)
       ++ " chars). " ++ "Consider adding more detailed instructions.")
  else result.

(** Recommended sections. *)
Definition check_sections (body : string) (result : ValidationResult)
  : ValidationResult :=
  let body_lower := lower body in
  fold_left
    (fun r kd =>
       if negb (contains (fst kd) body_lower) then
         add_warning r ("Missing recommended section: " ++ snd kd)
       else r)
    recommended_sections result.

(** Tool references; a value that is no string is not looked at. *)
Definition check_tools (frontmatter : dict) (result : ValidationResult)
  : ValidationResult :=
  match lookup "tools" frontmatter with
  | Some (VStr tools) =>
      let tools_list := map strip (split "," tools) in
      let invalid_tools :=
        filter (fun t => negb (String.eqb t "") && negb (mem t valid_tools))
               tools_list in
      match invalid_tools with
      | [] => result
      | _ => add_warning result
               ("Unknown tools specified: " ++ join ", " invalid_tools)
      end
  | _ => result
  end.

Section Engine.

Variable yaml_safe_load : string -> outcome value.
Variable py_repr_container : value -> string.

(** Model; membership in a set hashes the value first. *)
Definition check_model (frontmatter : dict) (result : ValidationResult)
  : outcome ValidationResult :=
  match lookup "model" frontmatter with
  | Some model =>
      if negb (hashable model) then
        Raise (TypeError ("unhashable type: '" ++ type_name model ++ "'"))
      else if negb (match model with
                    | VStr s => mem s valid_models
                    | _ => false
                    end) then
        Ok (add_warning result
              ("Unknown model '" ++ py_str py_repr_container model
               ++ "'. Valid options: " ++ join ", " (sorted valid_models)))
      else Ok result
  | None => Ok result
  end.

(** Script permissions: one warning for every script without an execute
    bit (octal 111 is 73). *)
Fixpoint check_permissions (python_files : list Path)
  (result : ValidationResult) : M ValidationResult :=
  match python_files with
  | [] => ret result
  | script :: rest =>
      mode <- st_mode script ;;
      check_permissions rest
        (if N.eqb (N.land mode 73) 0 then
           add_warning result
             ("Script " ++ name script ++ " is not executable. "
              ++ "Consider: chmod +x " ++ to_string script)
         else result)
  end.

(** Directory structure: the scripts directory. *)
Definition check_scripts_dir (scripts_dir : Path) (result : ValidationResult)
  : M ValidationResult :=
  has_scripts <- exists_ scripts_dir ;;
  if has_scripts then
    python_files <- glob_suffix scripts_dir ".py" ;;
    match python_files with
    | [] => ret result
    | _ =>
        has_init <- exists_ (child scripts_dir "__init__.py") ;;
        let result :=
          if negb has_init then
            add_warning result
              ("scripts/ directory contains Python files but no "
               ++ "__init__.py")
          else result in
        w <- ask ;;
        if negb (String.eqb (sys_platform w) "win32") then
          check_permissions python_files result
        else ret result
    end
  else ret result.

(** Directory structure: the references directory. *)
Definition check_references_dir (references_dir : Path)
  (result : ValidationResult) : M ValidationResult :=
  has_references <- exists_ references_dir ;;
  if has_references then
    md_files <- glob_suffix references_dir ".md" ;;
    match md_files with
    | [] => ret (add_warning result
                   "references/ directory exists but contains no .md files")
    | _ => ret result
    end
  else ret result.

(** Directory structure. *)
Definition check_structure (skill_file : Path) (result : ValidationResult)
  : M ValidationResult :=
  let skill_dir := parent skill_file in
  let scripts_dir := child skill_dir "scripts" in
  let references_dir := child skill_dir "references" in
  result <- check_scripts_dir scripts_dir result ;;
  check_references_dir references_dir result.

(** The checks on a parsed file, up to the directory checks. *)
Definition check_content (strict : bool) (frontmatter : dict) (body : string)
  (result : ValidationResult) : outcome ValidationResult :=
  rbind (check_name frontmatter result) (fun result =>
  rbind (check_description frontmatter result) (fun result =>
  rbind (check_unexpected strict frontmatter result) (fun result =>
  let result := check_body strict body result in
  let result := check_sections body result in
  let result := check_tools frontmatter result in
  check_model frontmatter result))).

(** ** validate_skill *)

Definition validate_skill (skill_path : Path) (strict : bool)
  : M ValidationResult :=
  let result := new_result in
  found <- find_skill_file skill_path ;;
  match found with
  | None =>
      ret (add_error result
             ("SKILL.md not found in " ++ format_path skill_path None))
  | Some skill_file =>
      read <- attempt (read_file_safe skill_file default_max_size)
                is_SkillError ;;
      match read with
      | inr e => ret (add_error result (exn_str e))
      | inl content =>
          match parse_skill_file yaml_safe_load content with
          | Raise e =>
              if is_SkillError e then ret (add_error result (exn_str e))
              else raise e
          | Ok (frontmatter, body) =>
              result <- lift (check_content strict frontmatter body result) ;;
              check_structure skill_file result
          end
      end
  end.

End Engine.

End Validate.

(* ================================================================== *)
(** * package_skill.py *)
(* ================================================================== *)

Module Package.
Import PyStr PyVal SkillUtils FS SkillFiles Validate.

(** [for x in l: if p(x): out.append(x)] *)
Fixpoint filter_m {A} (p : A -> M bool) (l : list A) : M (list A) :=
  match l with
  | [] => ret []
  | x :: l' =>
      keep <- p x ;;
      rest <- filter_m p l' ;;
      ret (if keep then x :: rest else rest)
  end.

(** ** collect_files *)

(** The files of one optional resource directory, regular files only. *)
Definition collect_resource (dir : Path) : M (list Path) :=
  e <- exists_ dir ;;
  d <- (if e then is_dir dir else ret false) ;;
  if d then
    found <- rglob_all dir ;;
    filter_m is_file found
  else ret [].

Definition collect_files (skill_dir : Path) : M (list Path) :=
  let skill_file := child skill_dir "SKILL.md" in
  e <- exists_ skill_file ;;
  if negb e then
    raise (SkillPackagingError
             ("SKILL.md not found in " ++ to_string skill_dir)) else
  let files := [skill_file] in
  scripts <- collect_resource (child skill_dir "scripts") ;;
  let files := (files ++ scripts)%list in
  references <- collect_resource (child skill_dir "references") ;;
  let files := (files ++ references)%list in
  let readme := child skill_dir "README.md" in
  has_readme <- exists_ readme ;;
  if has_readme then ret (files ++ [readme])%list else ret files.

Section Packager.

Variable yaml_safe_load : string -> outcome value.
Variable py_repr_container : value -> string.

(** ** create_manifest *)

Definition optional_field (key : string) (frontmatter : dict) : dict :=
  match lookup key frontmatter with
  | Some v => [(VStr key, v)]
  | None => []
  end.

(** [dir.exists() and any(dir.iterdir())] *)
Definition has_entries (dir : Path) : M bool :=
  e <- exists_ dir ;;
  if e then any_iterdir dir else ret false.

Definition create_manifest (skill_dir : Path) (frontmatter : dict) : M dict :=
  tell EvClock ;;;
  w <- ask ;;
  let manifest :=
    ([(VStr "name", get "name" (VStr "") frontmatter);
      (VStr "description", get "description" (VStr "") frontmatter);
      (VStr "version", VStr "1.0.0");
      (VStr "packaged_at", VStr (utcnow_isoformat w ++ "Z"));
      (VStr "format", VStr "claude-skill");
      (VStr "format_version", VStr "1.0")]
     ++ optional_field "tools" frontmatter
     ++ optional_field "model" frontmatter)%list in
  includes_scripts <- has_entries (child skill_dir "scripts") ;;
  includes_references <- has_entries (child skill_dir "references") ;;
  ret (manifest
       ++ [(VStr "includes_scripts", VBool includes_scripts);
           (VStr "includes_references", VBool includes_references)])%list.

(** ** package_as_zip *)

Definition not_relative (file base : Path) : exn :=
  ValueError ("'" ++ to_string file ++ "' is not in the subpath of '"
              ++ to_string base ++ "'").

Definition package_as_zip (skill_dir output_path : Path)
  (manifest : option dict) : M unit :=
  files <- collect_files skill_dir ;;
  try_except
    (output (EvZipOpen output_path) ;;;
     match manifest with
     | Some ((_ :: _) as m) =>
         output (EvZipWritestr output_path "manifest.json" m)
     | _ => ret tt
     end ;;;
     for_each files (fun file =>
       match relative_to file skill_dir with
       | Some arcname => output (EvZipWrite output_path file arcname)
       | None => raise (not_relative file skill_dir)
       end))
    (fun _ => true)
    (fun e => raise (SkillPackagingError
                       ("Failed to create ZIP: " ++ exn_str e))).

(** ** package_as_directory *)

(** [shutil.copy2(src, dst)]: the source must be a regular file. *)
Definition copy2 (src dst : Path) : M unit :=
  w <- ask ;;
  match os_stat w src with
  | Some (File _ _ _) => output (EvCopy2 src dst)
  | Some (Dir _ _) =>
      tell (EvStat src) ;;;
      raise (OSError ("[Errno 21] Is a directory: '" ++ to_string src ++ "'"))
  | Some _ =>
      tell (EvStat src) ;;;
      raise (OSError ("`" ++ to_string src ++ "` is a named pipe"))
  | None => tell (EvStat src) ;;; raise (not_found src)
  end.

Definition package_as_directory (skill_dir output_path : Path)
  (manifest : option dict) : M unit :=
  files <- collect_files skill_dir ;;
  try_except
    (output (EvMkdir output_path) ;;;
     match manifest with
     | Some ((_ :: _) as m) =>
         output (EvWriteJson (child output_path "manifest.json") m)
     | _ => ret tt
     end ;;;
     for_each files (fun file =>
       match relative_to file skill_dir with
       | Some rel_path =>
           let dest := div output_path rel_path in
           output (EvMkdir (parent dest)) ;;;
           copy2 file dest
       | None => raise (not_relative file skill_dir)
       end))
    (fun _ => true)
    (fun e => raise (SkillPackagingError
                       ("Failed to create directory: " ++ exn_str e))).

(** ** package_skill *)

(** [Path(v)]: only a string makes a path. *)
Definition path_of_value (v : value) : outcome Path :=
  match v with
  | VStr s => Ok (of_string s)
  | _ => Raise (TypeError ("expected str, bytes or os.PathLike object, not "
                           ++ type_name v))
  end.

Definition package_skill (skill_path : Path) (output : option Path)
  (format : string) (validate include_manifest : bool) : M Path :=
  found <- find_skill_file skill_path ;;
  match found with
  | None =>
      raise (SkillPackagingError
               ("SKILL.md not found in " ++ format_path skill_path None))
  | Some skill_file =>
      let skill_dir := parent skill_file in
      (if validate then
         result <- validate_skill yaml_safe_load py_repr_container
                     skill_dir false ;;
         if negb (is_valid result) then
           raise (SkillError
                    ("Skill validation failed:" ++ nl ++ result_str result
                     ++ nl ++ nl ++ "Use --no-validate to skip validation"))
         else ret tt
       else ret tt) ;;;
      content <- read_file_safe skill_file default_max_size ;;
      parsed <- lift (parse_skill_file yaml_safe_load content) ;;
      let frontmatter := fst parsed in
      manifest <-
        (if include_manifest then
           m <- create_manifest skill_dir frontmatter ;; ret (Some m)
         else ret None) ;;
      let skill_name := get "name" (VStr (name skill_dir)) frontmatter in
      output <-
        match output with
        | Some o => ret o
        | None =>
            if String.eqb format "zip" then
              ret (of_string (py_str py_repr_container skill_name ++ ".zip"))
            else lift (path_of_value skill_name)
        end ;;
      if String.eqb format "zip" then
        package_as_zip skill_dir output manifest ;;; ret output
      else if String.eqb format "directory" then
        package_as_directory skill_dir output manifest ;;; ret output
      else raise (SkillPackagingError ("Unknown format: " ++ format))
  end.

End Packager.

End Package.

(* ================================================================== *)
(** * Sample inputs *)
(* ================================================================== *)

Module Sample.
Import PyStr PyVal SkillUtils FS SkillFiles Validate Package.

Definition good_header : string :=
  "name: demo-skill" ++ nl ++ "description: Does a thing.".

Definition good_body : string :=
  "When to use: whenever a demonstration is needed. "
  ++ "Instructions: follow the steps one by one. "
  ++ "Example: run the tool on the sample input.".

(** The loader on the sample headers: what PyYAML returns for each of
    these texts; any other text is refused. *)
Definition yaml_safe_load (s : string) : outcome value :=
  if String.eqb s good_header then
    Ok (VDict [(VStr "name", VStr "demo-skill");
               (VStr "description", VStr "Does a thing.")])
  else if String.eqb s ("name: 123" ++ nl ++ "description: Does a thing.")
  then
    Ok (VDict [(VStr "name", VInt 123);
               (VStr "description", VStr "Does a thing.")])
  else if String.eqb s "description: Does a thing." then
    Ok (VDict [(VStr "description", VStr "Does a thing.")])
  else if String.eqb s (good_header ++ nl ++ "author: someone") then
    Ok (VDict [(VStr "name", VStr "demo-skill");
               (VStr "description", VStr "Does a thing.");
               (VStr "author", VStr "someone")])
  else Raise (YAMLError "not one of the sample headers").

(** No sample prints a list or a dict. *)
Definition py_repr_container (v : value) : string := "[...]".

Definition skill_text (header body : string) : string :=
  delimiter_line ++ header ++ closing_delimiter ++ body.

(** A regular file with mode 644 (octal) holding [text]. *)
Definition text_file (text : string) : node :=
  File 420 (N.of_nat (String.length text)) (Text text).

(** A tree with [/etc/passwd] and the skill directory [/skill], whose
    entries are given; directories have mode 755 (octal). *)
Definition tree (skill_entries : list (string * node)) : node :=
  Dir 493
    [("etc", Dir 493 [("passwd", text_file "root:x:0:0:root:/root:/bin/sh")]);
     ("skill", Dir 493 skill_entries)].

(** A Linux machine at the root directory, with a healthy disk. *)
Definition world_of (skill_entries : list (string * node)) : world :=
  mkWorld (tree skill_entries) [] "linux" "2024-05-01T12:00:00.000000"
          (fun _ => None).

Definition skill_dir : Path := mkPath true ["skill"].

Definition skill_md (header : string) : string * node :=
  ("SKILL.md", text_file (skill_text header good_body)).

(** Only the header+body file, well formed. *)
Definition plain : world := world_of [skill_md good_header].


(** [README.md] is a directory. *)
Definition readme_is_dir : world :=
  world_of [skill_md good_header; ("README.md", Dir 493 [])].

(** The name is the integer 123. *)
Definition integer_name : world :=
  world_of [skill_md ("name: 123" ++ nl ++ "description: Does a thing.")].

(** The name is missing. *)
Definition missing_name : world :=
  world_of [skill_md "description: Does a thing."].

(** One key outside the four recognized ones. *)
Definition extra_field : world :=
  world_of [skill_md (good_header ++ nl ++ "author: someone")].

End Sample.

(* ================================================================== *)
(** * Vocabulary of the statements *)
(* ================================================================== *)

Module Spec.
Import PyStr PyVal SkillUtils FS SkillFiles Validate Package.

Definition not_gt (c : ascii) : bool := negb (Ascii.eqb c ">").

(** [s] has a substring of the shape: [<], one or more characters other
    than [>], [>]. *)
Definition xml_tag_shaped (s : string) : Prop :=
  exists pre mid post,
    mid <> "" /\ forallb_str not_gt mid = true
    /\ s = pre ++ "<" ++ mid ++ ">" ++ post.

(** What a run returns or raises, and what it did meanwhile. *)
Definition answer {A} (m : M A) (w : world) : outcome A := snd (m w).
Definition trace {A} (m : M A) (w : world) : list event := fst (m w).







(** The run changed nothing on disk. *)
Definition no_output (l : list event) : Prop :=
  forallb (fun ev => negb (is_output ev)) l = true.

(** A computation that never changes anything on disk. *)
Definition quiet {A} (m : M A) : Prop := forall w, no_output (trace m w).



(** [ws] appended to the warnings of [r]. *)
Definition add_warnings (r : ValidationResult) (ws : list string)
  : ValidationResult :=
  mkResult (errors r) (warnings r ++ ws)%list.

Definition omap {A B} (f : A -> B) (o : outcome A) : outcome B :=
  match o with
  | Ok a => Ok (f a)
  | Raise e => Raise e
  end.

(** The messages of a parsed file whose place depends on the mode: the
    unexpected-fields message, then the empty-body message. *)
Definition unexpected_message (frontmatter : dict) : list string :=
  match unexpected_keys frontmatter with
  | [] => []
  | unexpected =>
      match all_strings unexpected with
      | Some names =>
          ["Unexpected frontmatter fields: " ++ join ", " (sorted names)]
      | None => []
      end
  end.

Definition empty_body_message (body : string) : list string :=
  if String.eqb body "" then
    ["SKILL.md body is empty (no content after frontmatter)"]
  else [].

Definition escalated (frontmatter : dict) (body : string) : list string :=
  (unexpected_message frontmatter ++ empty_body_message body)%list.

(** One of the two messages that strict mode moves to the errors. *)
Definition escalated_message (m : string) : Prop :=
  m = "SKILL.md body is empty (no content after frontmatter)"
  \/ exists names,
       m = "Unexpected frontmatter fields: " ++ join ", " (sorted names).

End Spec.

(* ================================================================== *)
(** * validate_skill.py: the command-line entry point *)
(* ================================================================== *)

Module Cli.
Import PyStr PyVal SkillUtils FS SkillFiles Validate.

Inductive stream : Type := Stdout | Stderr.

(** What [argparse] hands to [main]. *)
Record arguments : Type := mkArguments {
  arg_skill_path : Path;
  arg_strict : bool;
  arg_quiet : bool;
  arg_verbose : bool
}.

Definition passed_with_warnings : string :=
  nl ++ "✅ Validation passed (with warnings)".

Definition failed_strict : string :=
  nl ++ "❌ Validation failed (strict mode)".

Section Main.

Variable yaml_safe_load : string -> outcome value.
Variable py_repr_container : value -> string.

(** [main] after the arguments are parsed: the exit code and the lines
    printed, in order.  The verbose header is printed after the
    validation, as in the source. *)
Definition main (args : arguments) : M (Z * list (stream * string)) :=
  run <- attempt (validate_skill yaml_safe_load py_repr_container
                    (arg_skill_path args) (arg_strict args))
           (fun _ => true) ;;
  match run with
  | inr e => ret (2%Z, [(Stderr, "Error: " ++ exn_str e)])
  | inl result =>
      let header :=
        if arg_verbose args then
          [(Stdout, "Validating: " ++ format_path (arg_skill_path args) None);
           (Stdout, "")]
        else [] in
      match errors result with
      | _ :: _ => ret (1%Z, (header ++ [(Stdout, result_str result)])%list)
      | [] =>
          if (match warnings result with [] => false | _ => true end)
             && negb (arg_quiet args) then
            if negb (arg_strict args) then
              ret (0%Z,
                   (header
                    ++ [(Stdout, result_str result);
                        (Stdout, passed_with_warnings)])%list)
            else
              ret (1%Z,
                   (header
                    ++ [(Stdout, result_str result);
                        (Stdout, failed_strict)])%list)
          else
            ret (0%Z,
                 (header
                  ++ (if negb (arg_quiet args) then
                        [(Stdout, "✅ Validation passed")]
                      else []))%list)
      end
  end.

End Main.

End Cli.

(* ================================================================== *)
(** * Vocabulary of the further statements *)
(* ================================================================== *)

Module Terms.
Import PyStr PyVal SkillUtils FS SkillFiles Validate Package Spec.

(** A path component that survives printing and parsing: not empty, not
    [.], without [/]. *)
Definition plain_part (c : string) : bool :=
  negb (String.eqb c "") && negb (String.eqb c ".")
  && negb (contains "/" c).

(** [n] copies of the character [c]. *)
Fixpoint replicate (n : nat) (c : ascii) : string :=
  match n with
  | O => EmptyString
  | S n' => String c (replicate n' c)
  end.



(** The name a collected file gets inside the package. *)
Definition arcname (skill_dir file : Path) : Path :=
  match relative_to file skill_dir with
  | Some rel => rel
  | None => file
  end.



(** Every exception the computation can raise satisfies [P]. *)
Definition throws {A} (P : exn -> Prop) (m : M A) : Prop :=
  forall w e, answer m w = Raise e -> P e.

(** Not one of the skill errors: an exception of the interpreter or of a
    library. *)
Definition foreign (e : exn) : Prop := is_SkillError e = false.

(** The exit code of the validator as a number. *)
Definition exit_code {A} (r : outcome (Z * A)) : option Z :=
  match r with
  | Ok (code, _) => Some code
  | Raise _ => None
  end.

End Terms.

(* ================================================================== *)
(** * Properties *)
(* ================================================================== *)

Import PyStr PyVal SkillUtils FS SkillFiles Validate Package Spec.

(** ** Strings *)

Lemma append_empty_r (s : string) : s ++ "" = s.
Proof. induction s as [|c s IH]; simpl; [reflexivity | now rewrite IH]. Qed.

Lemma append_assoc (a b c : string) : (a ++ b) ++ c = a ++ b ++ c.
Proof. induction a as [|x a IH]; simpl; [reflexivity | now rewrite IH]. Qed.

Lemma length_append (a b : string) :
  String.length (a ++ b) = String.length a + String.length b.
Proof. induction a as [|x a IH]; simpl; [reflexivity | now rewrite IH]. Qed.


Lemma startswith_append (p t : string) : startswith p (p ++ t) = true.
Proof.
  induction p as [|a p IH]; simpl; [reflexivity|].
  now rewrite Ascii.eqb_refl, IH.
Qed.

Lemma startswith_inv (p s : string) :
  startswith p s = true -> s = p ++ drop (String.length p) s.
Proof.
  revert s; induction p as [|a p IH]; intros s H.
  - reflexivity.
  - destruct s as [|b s]; simpl in H; [discriminate|].
    apply andb_true_iff in H as [Hab Hp].
    apply Ascii.eqb_eq in Hab; subst b.
    simpl. f_equal. now apply IH.
Qed.

Lemma startswith_iff (p s : string) :
  startswith p s = true <-> exists t, s = p ++ t.
Proof.
  split.
  - intros H. eexists. now apply startswith_inv.
  - intros [t ->]. apply startswith_append.
Qed.

Lemma contains_iff (sub s : string) :
  contains sub s = true <-> exists a b, s = a ++ sub ++ b.
Proof.
  split.
  - induction s as [|c s IH]; simpl; intros H.
    + rewrite orb_false_r in H. apply startswith_iff in H as [t Ht].
      exists "", t. exact Ht.
    + apply orb_true_iff in H as [H|H].
      * apply startswith_iff in H as [t Ht]. exists "", t. exact Ht.
      * destruct (IH H) as (a & b & ->). now exists (String c a), b.
  - intros (a & b & ->). induction a as [|c a IH].
    + simpl. destruct (sub ++ b) eqn:E.
      * simpl. rewrite <- E at 1. now rewrite startswith_append.
      * simpl. rewrite <- E at 1. now rewrite startswith_append.
    + simpl. rewrite IH. apply orb_true_r.
Qed.

Lemma contains_false_iff (sub s : string) :
  contains sub s = false <-> ~ exists a b, s = a ++ sub ++ b.
Proof.
  rewrite <- contains_iff. now destruct (contains sub s).
Qed.

(** Membership of one character. *)
Lemma contains_char (c : ascii) (s : string) :
  contains (String c "") s
  = negb (forallb_str (fun x => negb (Ascii.eqb c x)) s).
Proof.
  induction s as [|x s IH]; simpl; [reflexivity|].
  rewrite IH. destruct (Ascii.eqb c x); simpl; [reflexivity|].
  reflexivity.
Qed.

Lemma forallb_str_append (f : ascii -> bool) (a b : string) :
  forallb_str f (a ++ b) = forallb_str f a && forallb_str f b.
Proof.
  induction a as [|x a IH]; simpl; [reflexivity|].
  now rewrite IH, andb_assoc.
Qed.

Lemma forallb_str_impl (f g : ascii -> bool) (s : string) :
  (forall c, f c = true -> g c = true) ->
  forallb_str f s = true -> forallb_str g s = true.
Proof.
  intros Hfg. induction s as [|x s IH]; simpl; [reflexivity|].
  intros H. apply andb_true_iff in H as [Hx Hs].
  now rewrite (Hfg _ Hx), IH.
Qed.

(** ** The name pattern *)

Lemma name_char_not_angle (c : ascii) :
  name_char c = true ->
  negb (Ascii.eqb "<" c) = true /\ negb (Ascii.eqb ">" c) = true.
Proof.
  destruct c as [[] [] [] [] [] [] [] []]; vm_compute; intros H;
    (discriminate H || (split; reflexivity)).
Qed.

Lemma skip_name_chars_split (s : string) :
  exists run, s = run ++ skip_name_chars s
              /\ forallb_str name_char run = true.
Proof.
  induction s as [|c s (run & Hs & Hrun)]; simpl.
  - now exists "".
  - destruct (name_char c) eqn:Hc.
    + exists (String c run). simpl. rewrite Hc, Hrun. split; [|reflexivity].
      now rewrite <- Hs.
    + now exists "".
Qed.

Lemma skip_name_chars_all (s : string) :
  forallb_str name_char s = true -> skip_name_chars s = "".
Proof.
  induction s as [|c s IH]; simpl; [reflexivity|].
  intros H. apply andb_true_iff in H as [Hc Hs]. now rewrite Hc, IH.
Qed.

Lemma at_eol_inv (s : string) : at_eol s = true -> s = "" \/ s = nl.
Proof.
  destruct s as [|c [|d s]]; simpl; intros H; try discriminate.
  - now left.
  - right. apply Ascii.eqb_eq in H. now subst c.
Qed.

(** What the name pattern accepts: a non-empty run of the class,
    optionally followed by one final newline. *)
Lemma re_match_name_inv (s : string) :
  re_match_name s = true ->
  exists run, run <> "" /\ forallb_str name_char run = true
              /\ (s = run \/ s = run ++ nl).
Proof.
  intros H. destruct s as [|c s]; [discriminate|].
  unfold re_match_name in H. apply andb_true_iff in H as [Hc Heol].
  destruct (skip_name_chars_split (String c s)) as (run & Hs & Hrun).
  exists run. split; [|split; [exact Hrun|]].
  - intros ->. simpl in Hs. rewrite Hc in Hs.
    assert (Hlen := f_equal String.length Hs). simpl in Hlen.
    destruct (skip_name_chars_split s) as (r & Hr & _).
    rewrite Hr in Hlen at 1. rewrite length_append in Hlen. lia.
  - apply at_eol_inv in Heol as [E|E]; rewrite E in Hs.
    + left. now rewrite append_empty_r in Hs.
    + now right.
Qed.

Lemma re_match_name_no_angle (s : string) :
  re_match_name s = true ->
  contains "<" s = false /\ contains ">" s = false.
Proof.
  intros H. apply re_match_name_inv in H as (run & _ & Hrun & Hs).
  assert (Hlt : forallb_str (fun x => negb (Ascii.eqb "<" x)) run = true).
  { revert Hrun. apply forallb_str_impl. intros c Hc.
    now apply name_char_not_angle. }
  assert (Hgt : forallb_str (fun x => negb (Ascii.eqb ">" x)) run = true).
  { revert Hrun. apply forallb_str_impl. intros c Hc.
    now apply name_char_not_angle. }
  rewrite !contains_char.
  destruct Hs as [-> | ->]; rewrite ?forallb_str_append, Hlt, Hgt;
    split; reflexivity.
Qed.

(** ** The tag pattern *)

Lemma contains_char_cons (c x : ascii) (s : string) :
  contains (String c "") (String x s)
  = Ascii.eqb c x || contains (String c "") s.
Proof. cbn [contains startswith]. now rewrite andb_true_r. Qed.

(** Cutting at the first [>]. *)
Lemma contains_gt_first (s : string) :
  contains ">" s = true ->
  exists m post, s = m ++ ">" ++ post /\ forallb_str not_gt m = true.
Proof.
  induction s as [|c s IH]; [discriminate|].
  rewrite contains_char_cons.
  destruct (Ascii.eqb ">" c) eqn:Hc.
  - intros _. apply Ascii.eqb_eq in Hc; subst c. now exists "", s.
  - cbn [orb]. intros H. destruct (IH H) as (m & post & -> & Hm).
    exists (String c m), post. split; [reflexivity|].
    cbn [forallb_str]. unfold not_gt at 1. rewrite Ascii.eqb_sym, Hc.
    exact Hm.
Qed.

Lemma tag_here_shaped (s : string) :
  tag_here s = true -> xml_tag_shaped s.
Proof.
  destruct s as [|lt [|c rest]]; try discriminate.
  - simpl. now destruct lt as [[] [] [] [] [] [] [] []].
  - intros H.
    assert (Hlt : lt = "<"%char /\ negb (Ascii.eqb c ">") = true
                  /\ contains ">" rest = true).
    { destruct lt as [[] [] [] [] [] [] [] []]; try discriminate H.
      simpl in H. apply andb_true_iff in H as [H1 H2]. auto. }
    destruct Hlt as (-> & Hc & Hrest).
    destruct (contains_gt_first rest Hrest) as (m & post & -> & Hm).
    exists "", (String c m), post. split; [discriminate|]. split.
    + simpl. unfold not_gt at 1. now rewrite Hc.
    + reflexivity.
Qed.

Lemma re_search_xml_tag_cons (c : ascii) (s : string) :
  re_search_xml_tag (String c s)
  = tag_here (String c s) || re_search_xml_tag s.
Proof. reflexivity. Qed.

Lemma re_search_xml_tag_iff (s : string) :
  re_search_xml_tag s = true <-> xml_tag_shaped s.
Proof.
  split.
  - induction s as [|c s IH]; intros H.
    + discriminate.
    + cbn [re_search_xml_tag] in H. apply orb_true_iff in H as [H|H].
      * now apply tag_here_shaped.
      * destruct (IH H) as (pre & mid & post & Hmid & Hall & ->).
        now exists (String c pre), mid, post.
  - intros (pre & mid & post & Hmid & Hall & ->).
    induction pre as [|c pre IH].
    + destruct mid as [|m mid]; [congruence|].
      simpl in Hall. apply andb_true_iff in Hall as [Hm _].
      cbn [append re_search_xml_tag tag_here].
      unfold not_gt in Hm. rewrite Hm. cbn [andb].
      replace (contains ">" (mid ++ String ">" post)) with true;
        [reflexivity|].
      symmetry. apply contains_iff. now exists mid, post.
    + change (re_search_xml_tag
                (String c (pre ++ "<" ++ mid ++ ">" ++ post)) = true).
      rewrite re_search_xml_tag_cons, IH. apply orb_true_r.
Qed.

(** ** Cutting at the first delimiter *)

Lemma split_first_eq (sep s : string) :
  split_first sep s =
  if startswith sep s then Some ("", drop (String.length sep) s)
  else match s with
       | "" => None
       | String c s' =>
           match split_first sep s' with
           | Some (a, b) => Some (String c a, b)
           | None => None
           end
       end.
Proof. now destruct s. Qed.


(** The cut exists as soon as the separator occurs, and it is the
    leftmost one. *)
Lemma split_first_complete (sep a' b' : string) :
  exists a b, split_first sep (a' ++ sep ++ b') = Some (a, b)
              /\ String.length a <= String.length a'.
Proof.
  induction a' as [|c a' (a & b & IH & Hlen)]; rewrite split_first_eq.
  - simpl append. rewrite startswith_append. eexists _, _. split; eauto.
  - destruct (startswith sep (String c a' ++ sep ++ b')).
    + eexists _, _. split; [reflexivity | simpl; lia].
    + cbn [append]. rewrite IH. exists (String c a), b.
      split; [reflexivity | simpl; lia].
Qed.

Lemma split_first_none (sep s : string) :
  split_first sep s = None -> forall a b, s <> a ++ sep ++ b.
Proof.
  intros H a b ->.
  destruct (split_first_complete sep a b) as (a0 & b0 & E & _). congruence.
Qed.



(** ** The field validators *)

(** C9. A name of 1 to 64 characters, all of them lowercase letters, digits
    or hyphens, that contains neither reserved word and no angle bracket,
    is valid and the message is empty. *)
Theorem validate_skill_name_accepts (name : string) :
  1 <= String.length name <= 64 ->
  forallb_str name_char name = true ->
  ~ (exists a b, name = a ++ "anthropic" ++ b) ->
  ~ (exists a b, name = a ++ "claude" ++ b) ->
  ~ (exists a b, name = a ++ "<" ++ b) ->
  ~ (exists a b, name = a ++ ">" ++ b) ->
  validate_skill_name (VStr name) = Ok (true, "").
Proof.
  intros [Hmin Hmax] Hclass Hanthropic Hclaude Hlt Hgt.
  apply contains_false_iff in Hanthropic, Hclaude, Hlt, Hgt.
  unfold validate_skill_name, truthy, py_len, re_subject, rbind.
  destruct name as [|c name]; [simpl in Hmin; lia|].
  cbn [String.eqb negb].
  replace (Nat.ltb 64 (String.length (String c name))) with false
    by (symmetry; apply Nat.ltb_ge; lia).
  replace (re_match_name (String c name)) with true.
  - now rewrite Hanthropic, Hclaude, Hlt, Hgt.
  - unfold re_match_name. rewrite (skip_name_chars_all _ Hclass).
    cbn [forallb_str] in Hclass. apply andb_true_iff in Hclass as [-> _].
    reflexivity.
Qed.

Lemma validate_skill_name_accepts_witness :
  validate_skill_name (VStr "my-skill") = Ok (true, "").
Proof.
  apply validate_skill_name_accepts;
    try (apply contains_false_iff; reflexivity).
  - simpl; lia.
  - reflexivity.
Defined.

(** C10. The name validator never answers with the angle-bracket message:
    a name that reaches that check has matched the name pattern, and such
    a name holds neither [<] nor [>]. *)
Theorem validate_skill_name_never_xml (name : value) (verdict : bool) :
  validate_skill_name name
  <> Ok (verdict, "Skill name cannot contain XML tags").
Proof.
  unfold validate_skill_name, rbind.
  destruct (negb (truthy name)); [discriminate|].
  destruct (py_len name) as [n|e]; [|discriminate].
  destruct (Nat.ltb 64 n).
  - intros H. discriminate H.
  - destruct (re_subject name) as [s|e]; [|discriminate].
    destruct (re_match_name s) eqn:Hmatch; cbn [negb]; [|discriminate].
    destruct (contains "anthropic" s || contains "claude" s);
      [discriminate|].
    destruct (re_match_name_no_angle s Hmatch) as [-> ->].
    discriminate.
Qed.

(** C5, the claim at a description of one space: not empty, short, without
    a tag, and refused. *)
Lemma validate_skill_description_whitespace_refused :
  " " <> "" /\ String.length " " <= 1024 /\ ~ xml_tag_shaped " "
  /\ validate_skill_description (VStr " ")
     = Ok (false, "Description cannot be only whitespace").
Proof.
  split; [discriminate|]. split; [simpl; lia|]. split; [|reflexivity].
  intros H. apply re_search_xml_tag_iff in H. discriminate H.
Qed.

(** C5, amended. A description that is not empty, not made of whitespace
    only, of at most 1024 characters and without a tag-shaped substring is
    valid and the message is empty. *)
Theorem validate_skill_description_accepts (description : string) :
  description <> "" ->
  strip description <> "" ->
  String.length description <= 1024 ->
  ~ xml_tag_shaped description ->
  validate_skill_description (VStr description) = Ok (true, "").
Proof.
  intros Hne Hstrip Hlen Htag.
  unfold validate_skill_description, truthy, py_strip, py_len, re_subject,
    rbind.
  apply String.eqb_neq in Hne, Hstrip. rewrite Hne, Hstrip. cbn [negb].
  replace (Nat.ltb 1024 (String.length description)) with false
    by (symmetry; apply Nat.ltb_ge; lia).
  destruct (re_search_xml_tag description) eqn:Hs; [|reflexivity].
  now apply re_search_xml_tag_iff in Hs.
Qed.

Lemma validate_skill_description_accepts_witness :
  validate_skill_description (VStr "A helpful skill") = Ok (true, "").
Proof.
  apply validate_skill_description_accepts.
  - discriminate.
  - vm_compute. discriminate.
  - simpl; lia.
  - intros H. apply re_search_xml_tag_iff in H. discriminate H.
Defined.

(** ** The header parser *)




(** The same text run through the parser: the second delimiter line stays
    in the body, whose final newline is stripped. *)
Example parse_skill_file_later_delimiter :
  parse_skill_file Sample.yaml_safe_load
    (Sample.skill_text Sample.good_header
       ("Intro" ++ nl ++ "---" ++ nl ++ "More" ++ nl))
  = Ok ([(VStr "name", VStr "demo-skill");
         (VStr "description", VStr "Does a thing.")],
        "Intro" ++ nl ++ "---" ++ nl ++ "More").
Proof. reflexivity. Qed.

(** ** Running the monad *)

Lemma answer_bind {A B} (m : M A) (f : A -> M B) (w : world) :
  answer (bind m f) w
  = match answer m w with
    | Ok a => answer (f a) w
    | Raise e => Raise e
    end.
Proof.
  unfold answer, bind. destruct (m w) as [l [a|e]]; [|reflexivity].
  simpl. now destruct (f a w).
Qed.

Lemma trace_bind {A B} (m : M A) (f : A -> M B) (w : world) :
  trace (bind m f) w
  = (trace m w ++ match answer m w with
                  | Ok a => trace (f a) w
                  | Raise _ => []
                  end)%list.
Proof.
  unfold answer, trace, bind. destruct (m w) as [l [a|e]].
  - simpl. now destruct (f a w).
  - simpl. now rewrite app_nil_r.
Qed.

Lemma answer_ask_bind {A} (f : world -> M A) (w : world) :
  answer (bind ask f) w = answer (f w) w.
Proof. unfold answer, bind, ask. now destruct (f w w). Qed.

Lemma trace_ask_bind {A} (f : world -> M A) (w : world) :
  trace (bind ask f) w = trace (f w) w.
Proof. unfold trace, bind, ask. now destruct (f w w). Qed.

Lemma answer_tell_bind {A} (ev : event) (f : unit -> M A) (w : world) :
  answer (bind (tell ev) f) w = answer (f tt) w.
Proof. unfold answer, bind, tell. now destruct (f tt w). Qed.

Lemma trace_tell_bind {A} (ev : event) (f : unit -> M A) (w : world) :
  trace (bind (tell ev) f) w = ev :: trace (f tt) w.
Proof. unfold trace, bind, tell. now destruct (f tt w). Qed.

Lemma answer_exists (p : Path) (w : world) :
  answer (exists_ p) w = Ok (stat_exists w p).
Proof. reflexivity. Qed.

Lemma answer_is_file (p : Path) (w : world) :
  answer (is_file p) w = Ok (is_file_node (os_stat w p)).
Proof. reflexivity. Qed.

Lemma answer_is_dir (p : Path) (w : world) :
  answer (is_dir p) w = Ok (is_dir_node (os_stat w p)).
Proof. reflexivity. Qed.


(** ** The file collector *)










(** ** Path resolution and containment *)











Lemma strip_prefix_app (pre rel : list string) :
  strip_prefix pre (pre ++ rel)%list = Some rel.
Proof.
  induction pre as [|a pre IH]; [reflexivity|].
  cbn [app strip_prefix]. now rewrite String.eqb_refl.
Qed.

Lemma strip_prefix_inv (pre l rel : list string) :
  strip_prefix pre l = Some rel -> l = (pre ++ rel)%list.
Proof.
  revert l. induction pre as [|a pre IH]; intros l.
  - now intros [= ->].
  - destruct l as [|b l]; [discriminate|]. cbn [strip_prefix].
    destruct (String.eqb a b) eqn:E; [|discriminate].
    apply String.eqb_eq in E. subst b. intros H. cbn [app]. f_equal.
    now apply IH.
Qed.











(** ** Computations that write nothing *)

Lemma no_output_app (l1 l2 : list event) :
  no_output l1 -> no_output l2 -> no_output (l1 ++ l2)%list.
Proof.
  unfold no_output. rewrite forallb_app. now intros -> ->.
Qed.

Lemma quiet_ret {A} (a : A) : quiet (ret a).
Proof. now intros w. Qed.

Lemma quiet_raise {A} (e : exn) : quiet (@raise A e).
Proof. now intros w. Qed.

Lemma quiet_lift {A} (r : outcome A) : quiet (lift r).
Proof. now intros w. Qed.

Lemma quiet_ask : quiet ask.
Proof. now intros w. Qed.

Lemma quiet_tell (ev : event) : is_output ev = false -> quiet (tell ev).
Proof. intros H w. unfold no_output, trace, tell. cbn. now rewrite H. Qed.

Lemma quiet_bind {A B} (m : M A) (f : A -> M B) :
  quiet m -> (forall a, quiet (f a)) -> quiet (bind m f).
Proof.
  intros Hm Hf w. rewrite trace_bind. apply no_output_app; [apply Hm|].
  destruct (answer m w); [apply Hf | reflexivity].
Qed.

Lemma quiet_attempt {A} (m : M A) (handles : exn -> bool) :
  quiet m -> quiet (attempt m handles).
Proof.
  intros Hm w. specialize (Hm w). unfold trace, attempt in *.
  destruct (m w) as [l [a|e]]; [exact Hm|]. now destruct (handles e).
Qed.

Lemma quiet_try_except {A} (m : M A) (handles : exn -> bool)
  (h : exn -> M A) :
  quiet m -> (forall e, quiet (h e)) -> quiet (try_except m handles h).
Proof.
  intros Hm Hh w. specialize (Hm w). unfold trace, try_except in *.
  destruct (m w) as [l [a|e]]; [exact Hm|].
  destruct (handles e); [|exact Hm].
  specialize (Hh e w). unfold trace in Hh. destruct (h e w) as [l2 r].
  now apply no_output_app.
Qed.

Create HintDb quiet.
#[local] Hint Resolve quiet_ret quiet_raise quiet_lift quiet_ask
  quiet_attempt : quiet.

(** One step through a computation built from the monad's operations. *)
Ltac quiet_step :=
  first
    [ solve [auto with quiet]
    | apply quiet_tell; reflexivity
    | apply quiet_bind; [|intros ?]
    | apply quiet_try_except; [|intros ?]
    | match goal with
      | |- quiet (if ?b then _ else _) => destruct b
      | |- quiet (match ?x with _ => _ end) => destruct x
      | |- quiet (let _ := _ in _) => cbv zeta
      end ].

Ltac quiet_tac := repeat quiet_step.

Lemma quiet_exists (p : Path) : quiet (exists_ p).
Proof. unfold exists_. quiet_tac. Qed.

Lemma quiet_is_file (p : Path) : quiet (is_file p).
Proof. unfold is_file. quiet_tac. Qed.

Lemma quiet_is_dir (p : Path) : quiet (is_dir p).
Proof. unfold is_dir. quiet_tac. Qed.

Lemma quiet_st_mode (p : Path) : quiet (st_mode p).
Proof. unfold st_mode. quiet_tac. Qed.

Lemma quiet_st_size (p : Path) : quiet (st_size p).
Proof. unfold st_size. quiet_tac. Qed.

Lemma quiet_read_text (p : Path) : quiet (read_text p).
Proof. unfold read_text. quiet_tac. Qed.

Lemma quiet_glob_suffix (p : Path) (suffix : string) :
  quiet (glob_suffix p suffix).
Proof. unfold glob_suffix. quiet_tac. Qed.

Lemma quiet_any_iterdir (p : Path) : quiet (any_iterdir p).
Proof. unfold any_iterdir. quiet_tac. Qed.

#[local] Hint Resolve quiet_exists quiet_is_file quiet_is_dir quiet_st_mode
  quiet_st_size quiet_read_text quiet_glob_suffix quiet_any_iterdir : quiet.

Lemma quiet_find_skill_file (path : Path) : quiet (find_skill_file path).
Proof. unfold find_skill_file. quiet_tac. Qed.

Lemma quiet_read_file_safe (file_path : Path) (max_size : N) :
  quiet (read_file_safe file_path max_size).
Proof. unfold read_file_safe. quiet_tac. Qed.

Lemma quiet_check_permissions (python_files : list Path) :
  forall result, quiet (check_permissions python_files result).
Proof.
  induction python_files as [|script rest IH]; intros result;
    cbn [check_permissions]; quiet_tac; apply IH.
Qed.

#[local] Hint Resolve quiet_find_skill_file quiet_read_file_safe
  quiet_check_permissions : quiet.

Lemma quiet_check_structure (skill_file : Path) (result : ValidationResult) :
  quiet (check_structure skill_file result).
Proof.
  unfold check_structure, check_scripts_dir, check_references_dir.
  quiet_tac.
Qed.

#[local] Hint Resolve quiet_check_structure : quiet.

Lemma quiet_validate_skill yaml repr (skill_path : Path) (strict : bool) :
  quiet (validate_skill yaml repr skill_path strict).
Proof. unfold validate_skill. quiet_tac. Qed.

Lemma quiet_has_entries (dir : Path) : quiet (has_entries dir).
Proof. unfold has_entries. quiet_tac. Qed.

#[local] Hint Resolve quiet_validate_skill quiet_has_entries : quiet.

Lemma quiet_create_manifest (skill_dir : Path) (frontmatter : dict) :
  quiet (create_manifest skill_dir frontmatter).
Proof. unfold create_manifest. quiet_tac. Qed.

#[local] Hint Resolve quiet_create_manifest : quiet.

(** ** The packager and the format selector *)






(** ** The validation engine *)

Lemma answer_attempt {A} (m : M A) (handles : exn -> bool) (w : world) :
  answer (attempt m handles) w =
  match answer m w with
  | Ok a => Ok (inl a)
  | Raise e => if handles e then Ok (inr e) else Raise e
  end.
Proof.
  unfold answer, attempt. destruct (m w) as [l [a|e]]; [reflexivity|].
  cbn [snd]. now destruct (handles e).
Qed.

Lemma answer_validate_skill yaml repr (skill_path : Path) (strict : bool)
  (w : world) :
  answer (validate_skill yaml repr skill_path strict) w =
  match answer (find_skill_file skill_path) w with
  | Raise e => Raise e
  | Ok None =>
      Ok (add_error new_result
            ("SKILL.md not found in " ++ format_path skill_path None))
  | Ok (Some skill_file) =>
      match answer (read_file_safe skill_file default_max_size) w with
      | Raise e =>
          if is_SkillError e then Ok (add_error new_result (exn_str e))
          else Raise e
      | Ok content =>
          match parse_skill_file yaml content with
          | Raise e =>
              if is_SkillError e then Ok (add_error new_result (exn_str e))
              else Raise e
          | Ok (frontmatter, body) =>
              match check_content repr strict frontmatter body new_result
              with
              | Raise e => Raise e
              | Ok result => answer (check_structure skill_file result) w
              end
          end
      end
  end.
Proof.
  unfold validate_skill. rewrite answer_bind.
  destruct (answer (find_skill_file skill_path) w) as [[skill_file|]|e];
    try reflexivity.
  rewrite answer_bind, answer_attempt.
  destruct (answer (read_file_safe skill_file default_max_size) w)
    as [content|e].
  - destruct (parse_skill_file yaml content) as [[frontmatter body]|e].
    + rewrite answer_bind. unfold lift at 1. unfold answer at 1. cbn [snd].
      reflexivity.
    + now destruct (is_SkillError e).
  - now destruct (is_SkillError e).
Qed.

(** *** Checks that only add warnings *)

Lemma add_warnings_nil (r : ValidationResult) : add_warnings r [] = r.
Proof. destruct r. unfold add_warnings. cbn. now rewrite app_nil_r. Qed.

Lemma add_warnings_app (r : ValidationResult) (a b : list string) :
  add_warnings (add_warnings r a) b = add_warnings r (a ++ b)%list.
Proof. unfold add_warnings. cbn. now rewrite app_assoc. Qed.

Lemma add_warning_add_warnings (r : ValidationResult) (m : string) :
  add_warning r m = add_warnings r [m].
Proof. reflexivity. Qed.

Lemma check_sections_warns (body : string) :
  exists ws, forall r, check_sections body r = add_warnings r ws.
Proof.
  unfold check_sections. generalize (lower body) as low. intros low.
  induction recommended_sections as [|kd l (ws & IH)].
  - exists []. intros r. now rewrite add_warnings_nil.
  - destruct (negb (contains (fst kd) low)) eqn:E.
    + exists (("Missing recommended section: " ++ snd kd) :: ws).
      intros r. cbn [fold_left]. rewrite E, IH, add_warning_add_warnings.
      now rewrite add_warnings_app.
    + exists ws. intros r. cbn [fold_left]. now rewrite E, IH.
Qed.

Lemma check_tools_warns (frontmatter : dict) :
  exists ws, forall r, check_tools frontmatter r = add_warnings r ws.
Proof.
  unfold check_tools.
  destruct (lookup "tools" frontmatter) as [[| | | | tools | |]|];
    try (exists []; intros r; now rewrite add_warnings_nil).
  destruct (filter _ _) as [|t invalid].
  - exists []. intros r. now rewrite add_warnings_nil.
  - eexists [_]. intros r. now rewrite add_warning_add_warnings.
Qed.

Lemma check_model_warns repr (frontmatter : dict) :
  exists W : outcome (list string),
    forall r, check_model repr frontmatter r = omap (add_warnings r) W.
Proof.
  unfold check_model. destruct (lookup "model" frontmatter) as [model|].
  - destruct (negb (hashable model)).
    + eexists (Raise _). reflexivity.
    + destruct (negb _).
      * eexists (Ok [_]). reflexivity.
      * exists (Ok []). intros r. cbn. now rewrite add_warnings_nil.
  - exists (Ok []). intros r. cbn. now rewrite add_warnings_nil.
Qed.

(** Sections, tools and model, one after the other. *)
Lemma content_tail_warns repr (frontmatter : dict) (body : string) :
  exists W : outcome (list string),
    forall r,
      check_model repr frontmatter
        (check_tools frontmatter (check_sections body r))
      = omap (add_warnings r) W.
Proof.
  destruct (check_sections_warns body) as (ws1 & H1).
  destruct (check_tools_warns frontmatter) as (ws2 & H2).
  destruct (check_model_warns repr frontmatter) as ([ws3|e] & H3).
  - exists (Ok (ws1 ++ ws2 ++ ws3)%list). intros r.
    rewrite H1, H2, H3. cbn [omap]. now rewrite !add_warnings_app.
  - exists (Raise e). intros r. now rewrite H3.
Qed.

Lemma answer_check_permissions_warns (python_files : list Path) (w : world) :
  exists W : outcome (list string),
    forall r,
      answer (check_permissions python_files r) w = omap (add_warnings r) W.
Proof.
  induction python_files as [|script rest ([ws|e] & IH)].
  - exists (Ok []). intros r. cbn. now rewrite add_warnings_nil.
  - destruct (answer (st_mode script) w) as [mode|e] eqn:Hmode.
    + destruct (N.eqb (N.land mode 73) 0) eqn:Hbits.
      * eexists (Ok (_ :: ws)). intros r. cbn [check_permissions].
        rewrite answer_bind, Hmode, Hbits, IH, add_warning_add_warnings.
        cbn [omap]. now rewrite add_warnings_app.
      * exists (Ok ws). intros r. cbn [check_permissions].
        now rewrite answer_bind, Hmode, Hbits, IH.
    + exists (Raise e). intros r. cbn [check_permissions].
      now rewrite answer_bind, Hmode.
  - destruct (answer (st_mode script) w) as [mode|e'] eqn:Hmode.
    + exists (Raise e). intros r. cbn [check_permissions].
      now rewrite answer_bind, Hmode, IH.
    + exists (Raise e'). intros r. cbn [check_permissions].
      now rewrite answer_bind, Hmode.
Qed.

Lemma answer_glob_suffix (p : Path) (suffix : string) (w : world) :
  exists l, answer (glob_suffix p suffix) w = Ok l.
Proof.
  unfold glob_suffix. rewrite answer_ask_bind, answer_tell_bind.
  destruct (scandir w p); eexists; reflexivity.
Qed.

Lemma answer_check_references_dir_warns (references_dir : Path) (w : world) :
  exists ws, forall r,
    answer (check_references_dir references_dir r) w
    = Ok (add_warnings r ws).
Proof.
  unfold check_references_dir.
  destruct (stat_exists w references_dir) eqn:He.
  - destruct (answer_glob_suffix references_dir ".md" w) as ([|p l] & Hg).
    + eexists [_]. intros r.
      rewrite answer_bind, answer_exists, He, answer_bind, Hg.
      reflexivity.
    + exists []. intros r.
      rewrite answer_bind, answer_exists, He, answer_bind, Hg.
      now rewrite add_warnings_nil.
  - exists []. intros r. rewrite answer_bind, answer_exists, He.
    now rewrite add_warnings_nil.
Qed.

Lemma answer_check_scripts_dir_warns (scripts_dir : Path) (w : world) :
  exists W : outcome (list string),
    forall r,
      answer (check_scripts_dir scripts_dir r) w = omap (add_warnings r) W.
Proof.
  unfold check_scripts_dir.
  destruct (stat_exists w scripts_dir) eqn:He.
  2:{ exists (Ok []). intros r. rewrite answer_bind, answer_exists, He.
      cbn. now rewrite add_warnings_nil. }
  destruct (answer_glob_suffix scripts_dir ".py" w) as ([|p l] & Hg).
  { exists (Ok []). intros r.
    rewrite answer_bind, answer_exists, He, answer_bind, Hg.
    cbn. now rewrite add_warnings_nil. }
  destruct (answer_check_permissions_warns (p :: l) w) as (W & HW).
  destruct (negb (String.eqb (sys_platform w) "win32")) eqn:Hplatform.
  - destruct (stat_exists w (child scripts_dir "__init__.py")) eqn:Hinit.
    + exists W. intros r.
      rewrite answer_bind, answer_exists, He, answer_bind, Hg.
      rewrite answer_bind, answer_exists, Hinit, answer_ask_bind.
      rewrite Hplatform. apply HW.
    + exists (omap (app ["scripts/ directory contains Python files but no "
                         ++ "__init__.py"]) W).
      intros r.
      rewrite answer_bind, answer_exists, He, answer_bind, Hg.
      rewrite answer_bind, answer_exists, Hinit, answer_ask_bind.
      rewrite Hplatform. cbn [negb]. rewrite HW, add_warning_add_warnings.
      destruct W as [ws|e]; [|reflexivity].
      cbn [omap]. now rewrite add_warnings_app.
  - destruct (stat_exists w (child scripts_dir "__init__.py")) eqn:Hinit.
    + exists (Ok []). intros r.
      rewrite answer_bind, answer_exists, He, answer_bind, Hg.
      rewrite answer_bind, answer_exists, Hinit, answer_ask_bind.
      rewrite Hplatform. cbn. now rewrite add_warnings_nil.
    + eexists (Ok [_]). intros r.
      rewrite answer_bind, answer_exists, He, answer_bind, Hg.
      rewrite answer_bind, answer_exists, Hinit, answer_ask_bind.
      rewrite Hplatform. reflexivity.
Qed.

Lemma answer_check_structure_warns (skill_file : Path) (w : world) :
  exists W : outcome (list string),
    forall r,
      answer (check_structure skill_file r) w = omap (add_warnings r) W.
Proof.
  unfold check_structure.
  destruct (answer_check_scripts_dir_warns
              (child (parent skill_file) "scripts") w) as ([ws1|e] & H1).
  - destruct (answer_check_references_dir_warns
                (child (parent skill_file) "references") w) as (ws2 & H2).
    exists (Ok (ws1 ++ ws2)%list). intros r.
    rewrite answer_bind, H1. cbn [omap]. rewrite H2.
    now rewrite add_warnings_app.
  - exists (Raise e). intros r. now rewrite answer_bind, H1.
Qed.

(** *** The two modes *)

Lemma check_name_warnings (frontmatter : dict) (r r' : ValidationResult) :
  check_name frontmatter r = Ok r' -> warnings r' = warnings r.
Proof.
  unfold check_name. destruct (negb (has_key "name" frontmatter)).
  - now intros [= <-].
  - destruct (validate_skill_name _) as [[ok msg]|e]; [|discriminate].
    cbn [rbind]. destruct (negb ok); now intros [= <-].
Qed.

Lemma check_description_warnings (frontmatter : dict)
  (r r' : ValidationResult) :
  check_description frontmatter r = Ok r' -> warnings r' = warnings r.
Proof.
  unfold check_description.
  destruct (negb (has_key "description" frontmatter)).
  - now intros [= <-].
  - destruct (validate_skill_description _) as [[ok msg]|e]; [|discriminate].
    cbn [rbind]. destruct (negb ok); now intros [= <-].
Qed.

(** From a result without warnings, the two escalating checks and the
    warning-only checks after them. *)
Lemma escalating_checks_modes repr (frontmatter : dict) (body : string)
  (r : ValidationResult) :
  warnings r = [] ->
  let run strict :=
    rbind (check_unexpected strict frontmatter r) (fun r3 =>
      check_model repr frontmatter
        (check_tools frontmatter
           (check_sections body (check_body strict body r3)))) in
  match run false with
  | Raise e => run true = Raise e
  | Ok rl =>
      exists rs,
        run true = Ok rs
        /\ errors rl = errors r
        /\ errors rs = (errors r ++ escalated frontmatter body)%list
        /\ warnings rl = (escalated frontmatter body ++ warnings rs)%list
  end.
Proof.
  intros Hr run. subst run. cbv beta.
  destruct (content_tail_warns repr frontmatter body) as (W & HW).
  unfold check_unexpected, escalated, unexpected_message.
  destruct (unexpected_keys frontmatter) as [|k ks].
  - cbn [rbind]. rewrite !HW.
    unfold check_body, empty_body_message.
    destruct (String.eqb body "").
    + destruct W as [ws|e]; [|reflexivity]. cbn [omap].
      eexists. split; [reflexivity|]. cbn. rewrite Hr. auto.
    + destruct (Nat.ltb (String.length body) 100);
        (destruct W as [ws|e]; [|reflexivity]); cbn [omap];
        (eexists; split; [reflexivity|]); cbn; rewrite Hr, ?app_nil_r;
        auto.
  - destruct (all_strings (k :: ks)) as [names|]; [|reflexivity].
    cbn [rbind]. rewrite !HW.
    unfold check_body, empty_body_message.
    destruct (String.eqb body "").
    + destruct W as [ws|e]; [|reflexivity]. cbn [omap].
      eexists. split; [reflexivity|]. cbn. rewrite Hr, <- app_assoc. auto.
    + destruct (Nat.ltb (String.length body) 100);
        (destruct W as [ws|e]; [|reflexivity]); cbn [omap];
        (eexists; split; [reflexivity|]); cbn; rewrite Hr; auto.
Qed.

Lemma check_content_modes repr (frontmatter : dict) (body : string) :
  match check_content repr false frontmatter body new_result with
  | Raise e => check_content repr true frontmatter body new_result = Raise e
  | Ok rl =>
      exists rs,
        check_content repr true frontmatter body new_result = Ok rs
        /\ errors rs = (errors rl ++ escalated frontmatter body)%list
        /\ warnings rl = (escalated frontmatter body ++ warnings rs)%list
  end.
Proof.
  unfold check_content.
  destruct (check_name frontmatter new_result) as [r1|e] eqn:H1;
    [|reflexivity].
  cbn [rbind].
  destruct (check_description frontmatter r1) as [r2|e] eqn:H2;
    [|reflexivity].
  cbn [rbind].
  assert (Hr2 : warnings r2 = []).
  { apply check_description_warnings in H2.
    apply check_name_warnings in H1. now rewrite H2, H1. }
  pose proof (escalating_checks_modes repr frontmatter body r2 Hr2) as H.
  cbv zeta beta in H.
  destruct (rbind (check_unexpected false frontmatter r2) _) as [rl|e];
    [|exact H].
  destruct H as (rs & Hrs & Hel & Hes & Hw).
  exists rs. split; [exact Hrs|]. now rewrite Hel.
Qed.

Lemma escalated_messages (frontmatter : dict) (body : string) :
  Forall escalated_message (escalated frontmatter body).
Proof.
  unfold escalated, unexpected_message, empty_body_message.
  apply Forall_app. split.
  - destruct (unexpected_keys frontmatter) as [|k ks]; [constructor|].
    destruct (all_strings (k :: ks)) as [names|]; [|constructor].
    constructor; [|constructor]. right. now exists names.
  - destruct (String.eqb body ""); [|constructor].
    constructor; [|constructor]. now left.
Qed.

(** The strict run against the lenient one. *)
Lemma validate_skill_modes yaml repr (skill_path : Path) (w : world) :
  match answer (validate_skill yaml repr skill_path false) w with
  | Raise e => answer (validate_skill yaml repr skill_path true) w = Raise e
  | Ok lenient =>
      exists strict moved,
        answer (validate_skill yaml repr skill_path true) w = Ok strict
        /\ Forall escalated_message moved
        /\ errors strict = (errors lenient ++ moved)%list
        /\ warnings lenient = (moved ++ warnings strict)%list
  end.
Proof.
  rewrite !answer_validate_skill.
  destruct (answer (find_skill_file skill_path) w) as [[skill_file|]|e];
    [| |reflexivity].
  2:{ eexists _, []. split; [reflexivity|]. split; [constructor|].
      cbn. auto. }
  destruct (answer (read_file_safe skill_file default_max_size) w)
    as [content|e].
  2:{ destruct (is_SkillError e); [|reflexivity].
      eexists _, []. split; [reflexivity|]. split; [constructor|].
      cbn. auto. }
  destruct (parse_skill_file yaml content) as [[frontmatter body]|e].
  2:{ destruct (is_SkillError e); [|reflexivity].
      eexists _, []. split; [reflexivity|]. split; [constructor|].
      cbn. auto. }
  pose proof (check_content_modes repr frontmatter body) as H.
  destruct (check_content repr false frontmatter body new_result)
    as [rl|e]; [|now rewrite H].
  destruct H as (rs & -> & He & Hw).
  destruct (answer_check_structure_warns skill_file w) as ([ws|e] & HW);
    rewrite !HW; [|reflexivity].
  cbn [omap]. exists (add_warnings rs ws), (escalated frontmatter body).
  split; [reflexivity|]. split; [apply escalated_messages|].
  cbn. rewrite He, Hw. now rewrite app_assoc.
Qed.


(** C2, the engine at a skill whose name is the integer 123: the call
    raises [TypeError] where the claim wants a result with an error. *)
Theorem validate_skill_raises_on_integer_name :
  answer (validate_skill Sample.yaml_safe_load Sample.py_repr_container
            Sample.skill_dir false) Sample.integer_name
  = Raise (TypeError "object of type 'int' has no len()")
  /\ answer (validate_skill Sample.yaml_safe_load Sample.py_repr_container
               Sample.skill_dir true) Sample.integer_name
     = Raise (TypeError "object of type 'int' has no len()").
Proof. split; reflexivity. Qed.





(** What the engine does on an environment failure: when the file is not
    found, or reading or parsing fails with one of the skill errors, the
    run stops with that single error and no warning, in both modes. *)
Lemma validate_skill_early_exit yaml repr (skill_path : Path)
  (strict : bool) (w : world) :
  (answer (find_skill_file skill_path) w = Ok None ->
   answer (validate_skill yaml repr skill_path strict) w
   = Ok (mkResult ["SKILL.md not found in " ++ to_string skill_path] []))
  /\ (forall skill_file e,
         answer (find_skill_file skill_path) w = Ok (Some skill_file) ->
         answer (read_file_safe skill_file default_max_size) w = Raise e ->
         is_SkillError e = true ->
         answer (validate_skill yaml repr skill_path strict) w
         = Ok (mkResult [exn_str e] []))
  /\ (forall skill_file content e,
         answer (find_skill_file skill_path) w = Ok (Some skill_file) ->
         answer (read_file_safe skill_file default_max_size) w = Ok content ->
         parse_skill_file yaml content = Raise e ->
         is_SkillError e = true ->
         answer (validate_skill yaml repr skill_path strict) w
         = Ok (mkResult [exn_str e] [])).
Proof.
  rewrite answer_validate_skill. repeat split.
  - now intros ->.
  - intros skill_file e -> -> ->. reflexivity.
  - intros skill_file content e -> -> -> ->. reflexivity.
Qed.

(* ================================================================== *)
(** * Further properties of the code *)
(* ================================================================== *)

Import Cli Terms.

(** ** The name validator *)

Lemma skip_name_chars_newline (run : string) :
  forallb_str name_char run = true -> skip_name_chars (run ++ nl) = nl.
Proof.
  induction run as [|c run IH]; [reflexivity|].
  cbn [forallb_str append skip_name_chars]. intros H.
  apply andb_true_iff in H as [-> Hrun]. now apply IH.
Qed.

Lemma re_match_name_intro (run : string) :
  run <> "" -> forallb_str name_char run = true ->
  re_match_name run = true /\ re_match_name (run ++ nl) = true.
Proof.
  intros Hne Hrun. destruct run as [|c run]; [congruence|].
  unfold re_match_name. cbn [append].
  change (String c (run ++ nl)) with (String c run ++ nl).
  rewrite skip_name_chars_newline, skip_name_chars_all by assumption.
  cbn [forallb_str] in Hrun. apply andb_true_iff in Hrun as [-> _].
  split; reflexivity.
Qed.

(** A name longer than 64 characters is refused with its length, whatever
    it is made of. *)
Theorem validate_skill_name_too_long (name : string) :
  64 < String.length name ->
  validate_skill_name (VStr name)
  = Ok (false, "Skill name too long (" ++ of_nat (String.length name)
               ++ " chars, max 64)").
Proof.
  intros Hlen. unfold validate_skill_name, truthy, py_len, rbind.
  destruct name as [|c name]; [simpl in Hlen; lia|].
  cbn [String.eqb negb].
  now replace (Nat.ltb 64 (String.length (String c name))) with true
    by (symmetry; apply Nat.ltb_lt; exact Hlen).
Qed.

Lemma validate_skill_name_too_long_witness :
  validate_skill_name (VStr (replicate 65 "<"))
  = Ok (false, "Skill name too long (65 chars, max 64)").
Proof.
  apply (validate_skill_name_too_long (replicate 65 "<")).
  apply Nat.ltb_lt. reflexivity.
Defined.

(** The names the validator accepts are exactly: a non-empty run of
    lowercase letters, digits and hyphens, optionally followed by one final
    newline, of at most 64 characters in all and without the two reserved
    words. *)
Theorem validate_skill_name_accepts_iff (name : string) :
  validate_skill_name (VStr name) = Ok (true, "")
  <-> (exists run,
          run <> "" /\ forallb_str name_char run = true
          /\ (name = run \/ name = run ++ nl))
      /\ String.length name <= 64
      /\ contains "anthropic" name = false
      /\ contains "claude" name = false.
Proof.
  unfold validate_skill_name, truthy, py_len, re_subject, rbind. split.
  - destruct (negb (negb (String.eqb name ""))); [discriminate|].
    destruct (Nat.ltb 64 (String.length name)) eqn:Hlen; [discriminate|].
    destruct (re_match_name name) eqn:Hmatch; cbn [negb]; [|discriminate].
    destruct (contains "anthropic" name); [discriminate|].
    destruct (contains "claude" name); [discriminate|].
    intros _. apply Nat.ltb_ge in Hlen.
    split; [now apply re_match_name_inv|]. auto.
  - intros ((run & Hne & Hrun & Hname) & Hlen & -> & ->).
    destruct (re_match_name_intro run Hne Hrun) as [Hm1 Hm2].
    assert (Hmatch : re_match_name name = true)
      by (destruct Hname as [-> | ->]; assumption).
    destruct (re_match_name_no_angle name Hmatch) as [Hlt Hgt].
    rewrite Hmatch, Hlt, Hgt.
    replace (String.eqb name "") with false.
    + replace (Nat.ltb 64 (String.length name)) with false
        by (symmetry; apply Nat.ltb_ge; exact Hlen).
      reflexivity.
    + symmetry. apply String.eqb_neq. intros ->.
      destruct run; [congruence|]. destruct Hname; discriminate.
Qed.

(** ** Both validators *)

(** On a string neither validator raises, and whatever the argument, the
    verdict is true exactly when the message is empty. *)
Theorem validators_verdict_and_message :
  (forall s, exists r, validate_skill_name (VStr s) = Ok r)
  /\ (forall s, exists r, validate_skill_description (VStr s) = Ok r)
  /\ (forall v ok msg,
         validate_skill_name v = Ok (ok, msg) -> (ok = true <-> msg = ""))
  /\ (forall v ok msg,
         validate_skill_description v = Ok (ok, msg) ->
         (ok = true <-> msg = "")).
Proof.
  split; [|split; [|split]].
  - intros s. unfold validate_skill_name, py_len, re_subject, rbind.
    repeat match goal with
           | |- context [if ?b then _ else _] => destruct b
           end; eexists; reflexivity.
  - intros s. unfold validate_skill_description, py_strip, py_len,
      re_subject, rbind.
    repeat match goal with
           | |- context [if ?b then _ else _] => destruct b
           end; eexists; reflexivity.
  - intros v ok msg. unfold validate_skill_name, rbind.
    destruct (negb (truthy v)).
    { intros [= <- <-]. split; discriminate. }
    destruct (py_len v) as [n|e]; [|discriminate].
    destruct (Nat.ltb 64 n).
    { intros [= <- <-]. split; discriminate. }
    destruct (re_subject v) as [s|e]; [|discriminate].
    repeat match goal with
           | |- context [if ?b then _ else _] => destruct b
           end; intros [= <- <-]; split; (discriminate || reflexivity).
  - intros v ok msg. unfold validate_skill_description, rbind.
    destruct (negb (truthy v)).
    { intros [= <- <-]. split; discriminate. }
    destruct (py_strip v) as [t|e]; [|discriminate].
    destruct (String.eqb t "").
    { intros [= <- <-]. split; discriminate. }
    destruct (py_len v) as [n|e]; [|discriminate].
    destruct (Nat.ltb 1024 n).
    { intros [= <- <-]. split; discriminate. }
    destruct (re_subject v) as [s|e]; [|discriminate].
    destruct (re_search_xml_tag s); intros [= <- <-]; split;
      (discriminate || reflexivity).
Qed.

(** ** The description validator *)

(** The descriptions the validator accepts are exactly those that are not
    made of whitespace only, have at most 1024 characters and no tag-shaped
    substring. *)
Theorem validate_skill_description_accepts_iff (description : string) :
  validate_skill_description (VStr description) = Ok (true, "")
  <-> strip description <> ""
      /\ String.length description <= 1024
      /\ ~ xml_tag_shaped description.
Proof.
  unfold validate_skill_description, truthy, py_strip, py_len, re_subject,
    rbind. split.
  - destruct (negb (negb (String.eqb description ""))); [discriminate|].
    destruct (String.eqb (strip description) "") eqn:Hstrip; [discriminate|].
    destruct (Nat.ltb 1024 (String.length description)) eqn:Hlen;
      [discriminate|].
    destruct (re_search_xml_tag description) eqn:Htag; [discriminate|].
    intros _. apply String.eqb_neq in Hstrip. apply Nat.ltb_ge in Hlen.
    repeat split; try assumption.
    intros H. apply re_search_xml_tag_iff in H. congruence.
  - intros (Hstrip & Hlen & Htag).
    assert (Hne : description <> "") by (intros ->; now apply Hstrip).
    apply String.eqb_neq in Hne, Hstrip. rewrite Hne, Hstrip. cbn [negb].
    replace (Nat.ltb 1024 (String.length description)) with false
      by (symmetry; apply Nat.ltb_ge; exact Hlen).
    destruct (re_search_xml_tag description) eqn:Hs; [|reflexivity].
    now apply re_search_xml_tag_iff in Hs.
Qed.

(** The checks run in order and stop at the first failure: a description
    of more than 1024 characters that is not blank is refused for its
    length, with or without a tag in it; a shorter one with a tag-shaped
    substring is refused for the tag. *)
Theorem validate_skill_description_refusals (description : string) :
  strip description <> "" ->
  (1024 < String.length description ->
   validate_skill_description (VStr description)
   = Ok (false, "Description too long ("
                ++ of_nat (String.length description)
                ++ " chars, max 1024)"))
  /\ (String.length description <= 1024 ->
      xml_tag_shaped description ->
      validate_skill_description (VStr description)
      = Ok (false, "Description cannot contain XML tags")).
Proof.
  intros Hstrip.
  assert (Hne : description <> "") by (intros ->; now apply Hstrip).
  unfold validate_skill_description, truthy, py_strip, py_len, re_subject,
    rbind.
  apply String.eqb_neq in Hne, Hstrip. rewrite Hne, Hstrip. cbn [negb].
  split.
  - intros Hlen. now replace (Nat.ltb 1024 (String.length description))
      with true by (symmetry; apply Nat.ltb_lt; exact Hlen).
  - intros Hlen Htag.
    replace (Nat.ltb 1024 (String.length description)) with false
      by (symmetry; apply Nat.ltb_ge; exact Hlen).
    apply re_search_xml_tag_iff in Htag. now rewrite Htag.
Qed.

Lemma validate_skill_description_refusals_witness :
  validate_skill_description (VStr ("<b>" ++ replicate 1024 "x"))
  = Ok (false, "Description too long (1027 chars, max 1024)")
  /\ validate_skill_description (VStr "Use <b>bold</b> text")
     = Ok (false, "Description cannot contain XML tags").
Proof.
  split.
  - apply (validate_skill_description_refusals
             ("<b>" ++ replicate 1024 "x")).
    + vm_compute. discriminate.
    + apply Nat.ltb_lt. reflexivity.
  - apply (validate_skill_description_refusals "Use <b>bold</b> text").
    + vm_compute. discriminate.
    + apply Nat.leb_le. reflexivity.
    + apply re_search_xml_tag_iff. reflexivity.
Defined.

(** ** The header parser *)

Lemma rstrip_idempotent (s : string) : rstrip (rstrip s) = rstrip s.
Proof.
  induction s as [|c s IH]; [reflexivity|].
  cbn [rstrip]. destruct (rstrip s) as [|d r] eqn:E.
  - destruct (is_space c) eqn:Hc; [reflexivity|].
    cbn [rstrip]. now rewrite Hc.
  - cbn [rstrip]. cbn [rstrip] in IH. rewrite IH. reflexivity.
Qed.

Lemma lstrip_head (s : string) :
  lstrip s = "" \/ exists c t, lstrip s = String c t /\ is_space c = false.
Proof.
  induction s as [|c s IH]; [now left|].
  cbn [lstrip]. destruct (is_space c) eqn:Hc; [exact IH|].
  right. now exists c, s.
Qed.

Lemma rstrip_head (c : ascii) (t : string) :
  is_space c = false -> exists t', rstrip (String c t) = String c t'.
Proof.
  intros Hc. cbn [rstrip]. rewrite Hc.
  destruct (rstrip t); eexists; reflexivity.
Qed.

Lemma strip_idempotent (s : string) : strip (strip s) = strip s.
Proof.
  unfold strip. destruct (lstrip_head s) as [-> | (c & t & -> & Hc)];
    [reflexivity|].
  destruct (rstrip_head c t Hc) as (t' & E).
  rewrite E at 1. cbn [lstrip]. rewrite Hc, <- E.
  apply rstrip_idempotent.
Qed.

(** What the parser does with a text that has no frontmatter: a blank text
    is refused as empty, any other text that does not start with three
    hyphens is refused for the missing frontmatter; the YAML loader is not
    consulted. When the parser succeeds, the body it returns has no
    whitespace at either end. *)
Theorem parse_skill_file_edges yaml (content : string) :
  (strip content = "" ->
   parse_skill_file yaml content
   = Raise (SkillValidationError "SKILL.md file is empty"))
  /\ (strip content <> "" -> startswith "---" content = false ->
      parse_skill_file yaml content
      = Raise (SkillValidationError
                 "SKILL.md must start with YAML frontmatter (---)"))
  /\ (forall frontmatter body,
         parse_skill_file yaml content = Ok (frontmatter, body) ->
         strip body = body).
Proof.
  unfold parse_skill_file. split; [|split].
  - now intros ->.
  - intros Hs ->. apply String.eqb_neq in Hs. now rewrite Hs.
  - intros frontmatter body.
    destruct (String.eqb (strip content) ""); [discriminate|].
    destruct (negb (startswith "---" content)); [discriminate|].
    destruct (re_match_frontmatter content) as [[h b]|]; [|discriminate].
    destruct (yaml h) as [[| | | | | |d]|[]]; try discriminate.
    intros [= <- <-]. apply strip_idempotent.
Qed.

Lemma parse_skill_file_edges_witness :
  parse_skill_file Sample.yaml_safe_load ("  " ++ nl)
  = Raise (SkillValidationError "SKILL.md file is empty")
  /\ parse_skill_file Sample.yaml_safe_load "# Title"
     = Raise (SkillValidationError
                "SKILL.md must start with YAML frontmatter (---)").
Proof.
  split.
  - apply (parse_skill_file_edges Sample.yaml_safe_load ("  " ++ nl)).
    reflexivity.
  - apply (parse_skill_file_edges Sample.yaml_safe_load "# Title").
    + discriminate.
    + reflexivity.
Defined.

(** When the YAML loader raises nothing but [YAMLError], every failure of
    the parser is a [SkillValidationError]: the loader's error is wrapped,
    never passed on. *)
Theorem parse_skill_file_raises_validation_errors yaml (content : string)
  (e : exn) :
  (forall s e', yaml s = Raise e' -> exists m, e' = YAMLError m) ->
  parse_skill_file yaml content = Raise e ->
  exists msg, e = SkillValidationError msg.
Proof.
  intros Hyaml. unfold parse_skill_file.
  destruct (String.eqb (strip content) ""); [intros [= <-]; eauto|].
  destruct (negb (startswith "---" content)); [intros [= <-]; eauto|].
  destruct (re_match_frontmatter content) as [[h b]|];
    [|intros [= <-]; eauto].
  destruct (yaml h) as [v|e'] eqn:Hload.
  - destruct v; try discriminate; intros [= <-]; eauto.
  - destruct (Hyaml h e' Hload) as (m & ->). intros [= <-]. eauto.
Qed.

Lemma parse_skill_file_raises_validation_errors_witness :
  exists msg,
    SkillValidationError
      "Invalid YAML in frontmatter: not one of the sample headers"
    = SkillValidationError msg.
Proof.
  apply (parse_skill_file_raises_validation_errors Sample.yaml_safe_load
           (Sample.skill_text "name: [" "Body")).
  - intros s e'. unfold Sample.yaml_safe_load.
    repeat match goal with
           | |- context [if ?b then _ else _] => destruct b
           end; try discriminate.
    intros [= <-]. eauto.
  - reflexivity.
Defined.

(** ** Reading and finding the skill file *)

Lemma answer_try_except {A} (m : M A) (handles : exn -> bool)
  (h : exn -> M A) (w : world) :
  answer (try_except m handles h) w =
  match answer m w with
  | Ok a => Ok a
  | Raise e => if handles e then answer (h e) w else Raise e
  end.
Proof.
  unfold answer, try_except. destruct (m w) as [l [a|e]]; [reflexivity|].
  cbn [snd]. destruct (handles e); [|reflexivity]. now destruct (h e w).
Qed.

Lemma trace_exists (p : Path) (w : world) : trace (exists_ p) w = [EvStat p].
Proof. reflexivity. Qed.

Lemma trace_is_file (p : Path) (w : world) : trace (is_file p) w = [EvStat p].
Proof. reflexivity. Qed.

Lemma trace_is_dir (p : Path) (w : world) : trace (is_dir p) w = [EvStat p].
Proof. reflexivity. Qed.

Lemma answer_st_size (p : Path) (w : world) :
  answer (st_size p) w =
  match os_stat w p with
  | Some (File _ size _) => Ok size
  | Some _ => Ok 0%N
  | None => Raise (not_found p)
  end.
Proof.
  unfold st_size. rewrite answer_ask_bind, answer_tell_bind.
  now destruct (os_stat w p) as [[]|].
Qed.

Lemma trace_st_size (p : Path) (w : world) : trace (st_size p) w = [EvStat p].
Proof.
  unfold st_size. rewrite trace_ask_bind, trace_tell_bind.
  now destruct (os_stat w p) as [[]|].
Qed.

Lemma answer_read_text (p : Path) (w : world) :
  answer (read_text p) w =
  match os_stat w p with
  | Some (File _ _ (Text s)) => Ok (universal_newlines s)
  | Some (File _ _ NotUtf8) =>
      Raise (UnicodeDecodeError "'utf-8' codec can't decode byte")
  | Some (File _ _ (Unreadable why)) => Raise (OSError why)
  | Some (Dir _ _) =>
      Raise (OSError ("[Errno 21] Is a directory: '" ++ to_string p ++ "'"))
  | Some _ => Raise (OSError "cannot read a special file")
  | None => Raise (not_found p)
  end.
Proof.
  unfold read_text. rewrite answer_ask_bind, answer_tell_bind.
  now destruct (os_stat w p) as [[? ? []| | |]|].
Qed.

(** What [read_file_safe] answers, by the node the path leads to. *)
Lemma answer_read_file_safe (file_path : Path) (max_size : N) (w : world) :
  answer (read_file_safe file_path max_size) w =
  match os_stat w file_path with
  | None => Raise (SkillError ("File not found: " ++ to_string file_path))
  | Some (File _ size content) =>
      if (max_size <? size)%N then
        Raise (SkillError ("File too large: " ++ of_N size ++ " bytes (max "
                           ++ of_N max_size ++ " bytes)"))
      else
        match content with
        | Text s => Ok (universal_newlines s)
        | NotUtf8 =>
            Raise (SkillError ("File is not valid UTF-8: "
                               ++ to_string file_path))
        | Unreadable why =>
            Raise (SkillError ("Error reading file " ++ to_string file_path
                               ++ ": " ++ why))
        end
  | Some _ => Raise (SkillError ("Not a file: " ++ to_string file_path))
  end.
Proof.
  unfold read_file_safe.
  rewrite answer_bind, answer_exists. unfold stat_exists.
  destruct (os_stat w file_path) as [n|] eqn:Hstat; [|reflexivity].
  cbn [negb]. rewrite answer_bind, answer_is_file, Hstat.
  destruct n as [mode size content| | |]; try reflexivity.
  cbn [is_file_node negb]. rewrite answer_bind, answer_st_size, Hstat.
  destruct (max_size <? size)%N; [reflexivity|].
  rewrite answer_try_except, answer_read_text, Hstat.
  now destruct content.
Qed.



(** The size limit is checked before the file is opened: when the text of
    a file is read, the path leads to a regular file of at most [max_size]
    bytes. A larger file is refused without being read. *)
Theorem read_file_safe_reads_within_limit (file_path : Path) (max_size : N)
  (w : world) (p : Path) :
  In (EvReadText p) (trace (read_file_safe file_path max_size) w) ->
  p = file_path
  /\ exists mode size content,
       os_stat w file_path = Some (File mode size content)
       /\ (size <= max_size)%N.
Proof.
  unfold read_file_safe.
  rewrite trace_bind, trace_exists, answer_exists. unfold stat_exists.
  destruct (os_stat w file_path) as [n|] eqn:Hstat.
  2:{ cbn. intros [H|[]]. discriminate H. }
  cbn [negb app]. rewrite trace_bind, trace_is_file, answer_is_file, Hstat.
  destruct n as [mode size content| | |];
    try (cbn; intros [H|[H|[]]]; discriminate H).
  cbn [is_file_node negb app].
  rewrite trace_bind, trace_st_size, answer_st_size, Hstat.
  destruct (max_size <? size)%N eqn:Hsize.
  { cbn. intros [H|[H|[H|[]]]]; discriminate H. }
  apply N.ltb_ge in Hsize. intros Hin.
  assert (Hp : In (EvReadText p)
                  (trace (try_except (read_text file_path) (fun _ => true)
                            (fun e =>
                               match e with
                               | UnicodeDecodeError _ =>
                                   raise (SkillError
                                            ("File is not valid UTF-8: "
                                             ++ to_string file_path))
                               | _ =>
                                   raise (SkillError
                                            ("Error reading file "
                                             ++ to_string file_path
                                             ++ ": " ++ exn_str e))
                               end)) w)).
  { cbn in Hin. destruct Hin as [H|[H|[H|H]]]; try discriminate H.
    exact H. }
  clear Hin. split; [|eauto 6].
  unfold trace, try_except, read_text, bind, ask, tell in Hp.
  cbn in Hp. rewrite Hstat in Hp.
  destruct content; cbn in Hp; destruct Hp as [H|[]]; now injection H.
Qed.

Lemma read_file_safe_reads_within_limit_witness :
  mkPath true ["skill"; "SKILL.md"] = mkPath true ["skill"; "SKILL.md"]
  /\ exists mode size content,
       os_stat Sample.plain (mkPath true ["skill"; "SKILL.md"])
       = Some (File mode size content)
       /\ (size <= default_max_size)%N.
Proof.
  apply (read_file_safe_reads_within_limit
           (mkPath true ["skill"; "SKILL.md"]) default_max_size Sample.plain).
  vm_compute. do 3 right. now left.
Defined.

Lemma answer_find_skill_file (path : Path) (w : world) :
  answer (find_skill_file path) w =
  Ok (if negb (stat_exists w path) then None
      else if is_file_node (os_stat w path)
              && String.eqb (name path) "SKILL.md" then Some path
      else if is_dir_node (os_stat w path)
              && stat_exists w (child path "SKILL.md")
           then Some (child path "SKILL.md")
      else None).
Proof.
  unfold find_skill_file. rewrite answer_bind, answer_exists.
  destruct (negb (stat_exists w path)); [reflexivity|].
  rewrite answer_bind, answer_is_file.
  destruct (is_file_node (os_stat w path) && String.eqb (name path) "SKILL.md");
    [reflexivity|].
  rewrite answer_bind, answer_is_dir.
  destruct (is_dir_node (os_stat w path)); [|reflexivity].
  rewrite answer_bind, answer_exists. cbn [andb].
  now destruct (stat_exists w (child path "SKILL.md")).
Qed.



(** ** What a computation can raise *)

Lemma throws_ret {A} P (a : A) : throws P (ret a).
Proof. intros w e H. discriminate H. Qed.

Lemma throws_raise {A} (P : exn -> Prop) (e : exn) :
  P e -> throws P (@raise A e).
Proof. intros HP w e' [= <-]. exact HP. Qed.

Lemma throws_ask P : throws P ask.
Proof. intros w e H. discriminate H. Qed.

Lemma throws_tell P (ev : event) : throws P (tell ev).
Proof. intros w e H. discriminate H. Qed.

Lemma throws_bind {A B} P (m : M A) (f : A -> M B) :
  throws P m -> (forall a, throws P (f a)) -> throws P (bind m f).
Proof.
  intros Hm Hf w e. rewrite answer_bind.
  destruct (answer m w) as [a|e'] eqn:E.
  - apply Hf.
  - intros [= <-]. now apply (Hm w).
Qed.

Lemma throws_lift {A} (P : exn -> Prop) (r : outcome A) :
  (forall e, r = Raise e -> P e) -> throws P (lift r).
Proof. intros H w e. apply H. Qed.

Lemma throws_attempt_skill {A} (m : M A) :
  throws foreign (attempt m is_SkillError).
Proof.
  intros w e. rewrite answer_attempt.
  destruct (answer m w) as [a|e']; [discriminate|].
  destruct (is_SkillError e') eqn:E; [discriminate|]. now intros [= <-].
Qed.

Lemma throws_try_except_all {A} P (m : M A) (h : exn -> M A) :
  (forall e, throws P (h e)) -> throws P (try_except m (fun _ => true) h).
Proof.
  intros Hh w e. rewrite answer_try_except.
  destruct (answer m w) as [a|e']; [discriminate|]. apply Hh.
Qed.

Ltac throws_step :=
  first
    [ apply throws_ret
    | apply throws_ask
    | apply throws_tell
    | apply throws_raise; reflexivity
    | apply throws_attempt_skill
    | assumption
    | apply throws_bind; [|intros ?]
    | match goal with
      | |- throws _ (if ?b then _ else _) => destruct b
      | |- throws _ (match ?x with _ => _ end) => destruct x
      end ].

Ltac throws_tac := repeat throws_step.

Lemma throws_exists P (p : Path) : throws P (exists_ p).
Proof. unfold exists_. throws_tac. Qed.

Lemma throws_is_file P (p : Path) : throws P (is_file p).
Proof. unfold is_file. throws_tac. Qed.

Lemma throws_is_dir P (p : Path) : throws P (is_dir p).
Proof. unfold is_dir. throws_tac. Qed.

Lemma throws_glob_suffix P (p : Path) (suffix : string) :
  throws P (glob_suffix p suffix).
Proof. unfold glob_suffix. throws_tac. Qed.

Lemma throws_rglob_all P (p : Path) : throws P (rglob_all p).
Proof. unfold rglob_all. throws_tac. Qed.

Lemma throws_st_mode (p : Path) : throws foreign (st_mode p).
Proof. unfold st_mode. throws_tac. Qed.

Lemma throws_find_skill_file P (path : Path) :
  throws P (find_skill_file path).
Proof.
  intros w e. rewrite answer_find_skill_file. discriminate.
Qed.

Lemma throws_check_permissions (python_files : list Path) :
  forall result, throws foreign (check_permissions python_files result).
Proof.
  induction python_files as [|script rest IH]; intros result;
    cbn [check_permissions].
  - apply throws_ret.
  - apply throws_bind; [apply throws_st_mode | intros mode; apply IH].
Qed.

Lemma throws_check_structure (skill_file : Path) (result : ValidationResult) :
  throws foreign (check_structure skill_file result).
Proof.
  unfold check_structure, check_scripts_dir, check_references_dir.
  repeat first
    [ apply throws_exists | apply throws_glob_suffix
    | apply throws_check_permissions | throws_step ].
Qed.

Lemma validate_skill_name_foreign (v : value) (e : exn) :
  validate_skill_name v = Raise e -> foreign e.
Proof.
  unfold validate_skill_name, rbind.
  destruct (negb (truthy v)); [discriminate|].
  destruct v; cbn [py_len re_subject];
    try (intros [= <-]; reflexivity);
    repeat match goal with
           | |- context [if ?b then _ else _] => destruct b
           end; try discriminate; intros [= <-]; reflexivity.
Qed.

Lemma validate_skill_description_foreign (v : value) (e : exn) :
  validate_skill_description v = Raise e -> foreign e.
Proof.
  unfold validate_skill_description, rbind.
  destruct (negb (truthy v)); [discriminate|].
  destruct v; cbn [py_strip py_len re_subject];
    try (intros [= <-]; reflexivity);
    repeat match goal with
           | |- context [if ?b then _ else _] => destruct b
           end; try discriminate; intros [= <-]; reflexivity.
Qed.

Lemma rbind_raise {A B} (r : outcome A) (f : A -> outcome B) (e : exn) :
  rbind r f = Raise e ->
  r = Raise e \/ exists a, r = Ok a /\ f a = Raise e.
Proof. destruct r as [a|e']; cbn; [eauto | intros [= <-]; now left]. Qed.

Lemma check_name_foreign (frontmatter : dict) (r : ValidationResult)
  (e : exn) :
  check_name frontmatter r = Raise e -> foreign e.
Proof.
  unfold check_name. destruct (negb (has_key "name" frontmatter));
    [discriminate|].
  intros H. apply rbind_raise in H as [H | ([ok msg] & _ & H)].
  - now apply validate_skill_name_foreign in H.
  - destruct (negb ok); discriminate H.
Qed.

Lemma check_description_foreign (frontmatter : dict) (r : ValidationResult)
  (e : exn) :
  check_description frontmatter r = Raise e -> foreign e.
Proof.
  unfold check_description.
  destruct (negb (has_key "description" frontmatter)); [discriminate|].
  intros H. apply rbind_raise in H as [H | ([ok msg] & _ & H)].
  - now apply validate_skill_description_foreign in H.
  - destruct (negb ok); discriminate H.
Qed.

Lemma check_unexpected_foreign (strict : bool) (frontmatter : dict)
  (r : ValidationResult) (e : exn) :
  check_unexpected strict frontmatter r = Raise e -> foreign e.
Proof.
  unfold check_unexpected.
  destruct (unexpected_keys frontmatter) as [|k ks]; [discriminate|].
  destruct (all_strings (k :: ks)); [destruct strict; discriminate|].
  now intros [= <-].
Qed.

Lemma check_model_foreign repr (frontmatter : dict) (r : ValidationResult)
  (e : exn) :
  check_model repr frontmatter r = Raise e -> foreign e.
Proof.
  unfold check_model.
  destruct (lookup "model" frontmatter) as [model|]; [|discriminate].
  destruct (negb (hashable model)); [now intros [= <-]|].
  destruct (negb _); discriminate.
Qed.

Lemma check_content_foreign repr (strict : bool) (frontmatter : dict)
  (body : string) (result : ValidationResult) (e : exn) :
  check_content repr strict frontmatter body result = Raise e -> foreign e.
Proof.
  unfold check_content. intros H.
  apply rbind_raise in H as [H | (r1 & _ & H)];
    [now apply check_name_foreign in H|].
  apply rbind_raise in H as [H | (r2 & _ & H)];
    [now apply check_description_foreign in H|].
  apply rbind_raise in H as [H | (r3 & _ & H)];
    [now apply check_unexpected_foreign in H|].
  now apply check_model_foreign in H.
Qed.

(** The engine handles every skill error itself and writes nothing: it
    performs no output operation in either mode, and an exception that
    leaves it is never one of the skill errors (it comes from the
    interpreter or from the YAML loader). *)
Theorem validate_skill_contained yaml repr (skill_path : Path)
  (strict : bool) (w : world) :
  no_output (trace (validate_skill yaml repr skill_path strict) w)
  /\ forall e,
       answer (validate_skill yaml repr skill_path strict) w = Raise e ->
       is_SkillError e = false.
Proof.
  split; [apply quiet_validate_skill|].
  intros e. rewrite answer_validate_skill.
  destruct (answer (find_skill_file skill_path) w) as [[skill_file|]|e']
    eqn:Hfind; try discriminate.
  2:{ rewrite answer_find_skill_file in Hfind. discriminate. }
  destruct (answer (read_file_safe skill_file default_max_size) w)
    as [content|e'].
  2:{ destruct (is_SkillError e') eqn:E; [discriminate|]. now intros [= <-]. }
  destruct (parse_skill_file yaml content) as [[frontmatter body]|e'].
  2:{ destruct (is_SkillError e') eqn:E; [discriminate|]. now intros [= <-]. }
  destruct (check_content repr strict frontmatter body new_result)
    as [result|e'] eqn:Hc.
  - apply (throws_check_structure skill_file result w).
  - intros [= <-]. now apply check_content_foreign in Hc.
Qed.

(** A skill that passes the strict run gets the very same result from the
    lenient run; a skill that passes the lenient run without any warning
    gets the very same result from the strict run. *)
Theorem validate_skill_modes_agree yaml repr (skill_path : Path)
  (w : world) (r : ValidationResult) :
  (answer (validate_skill yaml repr skill_path true) w = Ok r ->
   errors r = [] ->
   answer (validate_skill yaml repr skill_path false) w = Ok r)
  /\ (answer (validate_skill yaml repr skill_path false) w = Ok r ->
      errors r = [] -> warnings r = [] ->
      answer (validate_skill yaml repr skill_path true) w = Ok r).
Proof.
  pose proof (validate_skill_modes yaml repr skill_path w) as H. split.
  - intros Hstrict Herrors.
    destruct (answer (validate_skill yaml repr skill_path false) w)
      as [lenient|e]; [|congruence].
    destruct H as (strict & moved & Hs & _ & He & Hw).
    rewrite Hs in Hstrict. injection Hstrict as ->.
    rewrite Herrors in He. symmetry in He.
    apply app_eq_nil in He as [He ->]. cbn [app] in Hw.
    destruct lenient, r. cbn in *. now subst.
  - intros Hlenient Herrors Hwarnings. rewrite Hlenient in H.
    destruct H as (strict & moved & Hs & _ & He & Hw).
    rewrite Hwarnings in Hw. symmetry in Hw.
    apply app_eq_nil in Hw as [-> Hw]. rewrite app_nil_r in He.
    rewrite Hs. destruct strict, r. cbn in *. now subst.
Qed.

Lemma validate_skill_modes_agree_witness :
  answer (validate_skill Sample.yaml_safe_load Sample.py_repr_container
            Sample.skill_dir false) Sample.plain
  = Ok new_result
  /\ answer (validate_skill Sample.yaml_safe_load Sample.py_repr_container
               Sample.skill_dir true) Sample.plain
     = Ok new_result.
Proof.
  destruct (validate_skill_modes_agree Sample.yaml_safe_load
              Sample.py_repr_container Sample.skill_dir Sample.plain
              new_result) as [Hstrict Hlenient].
  split.
  - apply Hstrict; reflexivity.
  - apply Hlenient; reflexivity.
Defined.

(** When the skill file is not found, or is found but is not a regular
    file of valid UTF-8 text within the size limit, the engine stops at
    once: the result is one error and no warning, in both modes. *)
Theorem validate_skill_stops_early yaml repr (skill_path : Path)
  (strict : bool) (w : world) :
  (answer (find_skill_file skill_path) w = Ok None ->
   answer (validate_skill yaml repr skill_path strict) w
   = Ok (mkResult ["SKILL.md not found in " ++ to_string skill_path] []))
  /\ (forall skill_file,
         answer (find_skill_file skill_path) w = Ok (Some skill_file) ->
         (forall mode size s,
             os_stat w skill_file = Some (File mode size (Text s)) ->
             (default_max_size < size)%N) ->
         exists msg,
           answer (validate_skill yaml repr skill_path strict) w
           = Ok (mkResult [msg] [])).
Proof.
  rewrite answer_validate_skill. split.
  - now intros ->.
  - intros skill_file -> Hbad. rewrite answer_read_file_safe.
    destruct (os_stat w skill_file) as [[mode size content| | |]|];
      try (eexists; reflexivity).
    destruct (default_max_size <? size)%N eqn:Hsize;
      [eexists; reflexivity|].
    destruct content as [s| |]; try (eexists; reflexivity).
    specialize (Hbad mode size s eq_refl). apply N.ltb_ge in Hsize. lia.
Qed.

Lemma validate_skill_stops_early_witness :
  answer (validate_skill Sample.yaml_safe_load Sample.py_repr_container
            (mkPath true ["skill"; "README.md"]) true) Sample.readme_is_dir
  = Ok (mkResult ["SKILL.md not found in /skill/README.md"] []).
Proof.
  apply (validate_skill_stops_early Sample.yaml_safe_load
           Sample.py_repr_container (mkPath true ["skill"; "README.md"])
           true Sample.readme_is_dir).
  reflexivity.
Defined.

(** *** How many errors *)

Lemma check_name_errors (frontmatter : dict) (r r' : ValidationResult) :
  check_name frontmatter r = Ok r' ->
  List.length (errors r') <= S (List.length (errors r)).
Proof.
  unfold check_name. destruct (negb (has_key "name" frontmatter)).
  - intros [= <-]. cbn. rewrite length_app. cbn. lia.
  - destruct (validate_skill_name _) as [[ok msg]|e]; [|discriminate].
    cbn [rbind]. destruct (negb ok); intros [= <-]; cbn;
      rewrite ?length_app; cbn; lia.
Qed.

Lemma check_description_errors (frontmatter : dict)
  (r r' : ValidationResult) :
  check_description frontmatter r = Ok r' ->
  List.length (errors r') <= S (List.length (errors r)).
Proof.
  unfold check_description.
  destruct (negb (has_key "description" frontmatter)).
  - intros [= <-]. cbn. rewrite length_app. cbn. lia.
  - destruct (validate_skill_description _) as [[ok msg]|e]; [|discriminate].
    cbn [rbind]. destruct (negb ok); intros [= <-]; cbn;
      rewrite ?length_app; cbn; lia.
Qed.

Lemma escalated_length (frontmatter : dict) (body : string) :
  List.length (escalated frontmatter body) <= 2.
Proof.
  unfold escalated, unexpected_message, empty_body_message.
  rewrite length_app.
  destruct (unexpected_keys frontmatter) as [|k ks];
    [|destruct (all_strings (k :: ks))];
    destruct (String.eqb body ""); cbn; lia.
Qed.

Lemma check_content_error_count repr (strict : bool) (frontmatter : dict)
  (body : string) (r : ValidationResult) :
  check_content repr strict frontmatter body new_result = Ok r ->
  List.length (errors r) <= if strict then 4 else 2.
Proof.
  assert (Hlenient : forall rl,
             check_content repr false frontmatter body new_result = Ok rl ->
             List.length (errors rl) <= 2).
  { unfold check_content. intros rl.
    destruct (check_name frontmatter new_result) as [r1|e] eqn:H1;
      [|discriminate].
    cbn [rbind].
    destruct (check_description frontmatter r1) as [r2|e] eqn:H2;
      [|discriminate].
    cbn [rbind]. intros H.
    assert (Hr2 : warnings r2 = []).
    { apply check_description_warnings in H2.
      apply check_name_warnings in H1. now rewrite H2, H1. }
    pose proof (escalating_checks_modes repr frontmatter body r2 Hr2) as Hm.
    cbv zeta beta in Hm. rewrite H in Hm.
    destruct Hm as (rs & _ & -> & _).
    apply check_name_errors in H1. apply check_description_errors in H2.
    cbn in H1. lia. }
  pose proof (check_content_modes repr frontmatter body) as Hm.
  destruct strict; [|apply Hlenient].
  intros Hstrict.
  destruct (check_content repr false frontmatter body new_result)
    as [rl|e]; [|congruence].
  destruct Hm as (rs & Hrs & He & _).
  rewrite Hrs in Hstrict. injection Hstrict as ->.
  rewrite He, length_app.
  pose proof (Hlenient rl eq_refl).
  pose proof (escalated_length frontmatter body). lia.
Qed.

(** A run reports at most two errors in lenient mode (name, description)
    and at most four in strict mode (those and the two escalated
    messages); everything else it reports is a warning. *)
Theorem validate_skill_error_count yaml repr (skill_path : Path)
  (strict : bool) (w : world) (r : ValidationResult) :
  answer (validate_skill yaml repr skill_path strict) w = Ok r ->
  List.length (errors r) <= if strict then 4 else 2.
Proof.
  rewrite answer_validate_skill.
  assert (Hone : 1 <= if strict then 4 else 2) by (destruct strict; lia).
  destruct (answer (find_skill_file skill_path) w) as [[skill_file|]|e];
    [| intros [= <-]; exact Hone | discriminate].
  destruct (answer (read_file_safe skill_file default_max_size) w)
    as [content|e].
  2:{ destruct (is_SkillError e); [|discriminate].
      intros [= <-]. exact Hone. }
  destruct (parse_skill_file yaml content) as [[frontmatter body]|e].
  2:{ destruct (is_SkillError e); [|discriminate].
      intros [= <-]. exact Hone. }
  destruct (check_content repr strict frontmatter body new_result)
    as [rc|e] eqn:Hc; [|discriminate].
  apply check_content_error_count in Hc.
  destruct (answer_check_structure_warns skill_file w) as (W & HW).
  rewrite HW. destruct W as [ws|e]; [|discriminate].
  now intros [= <-].
Qed.

Lemma validate_skill_error_count_witness :
  List.length
    (errors (mkResult ["Unexpected frontmatter fields: author"] [])) <= 4.
Proof.
  apply (validate_skill_error_count Sample.yaml_safe_load
           Sample.py_repr_container Sample.skill_dir true
           Sample.extra_field).
  reflexivity.
Defined.

(** ** Paths *)

Lemma contains_slash_cons (x : ascii) (c : string) :
  contains "/" (String x c) = false ->
  Ascii.eqb x "/" = false /\ contains "/" c = false.
Proof.
  rewrite contains_char_cons. intros H.
  apply orb_false_iff in H as [Hx Hc]. now rewrite Ascii.eqb_sym.
Qed.

Lemma split_plain (c : string) :
  contains "/" c = false -> split "/" c = [c].
Proof.
  induction c as [|x c IH]; [reflexivity|].
  intros H. apply contains_slash_cons in H as [Hx Hc].
  cbn [split]. now rewrite Hx, IH.
Qed.

Lemma split_plain_slash (c rest : string) :
  contains "/" c = false ->
  split "/" (c ++ String "/" rest) = c :: split "/" rest.
Proof.
  induction c as [|x c IH]; [reflexivity|].
  intros H. apply contains_slash_cons in H as [Hx Hc].
  cbn [append split]. rewrite Hx. now rewrite (IH Hc).
Qed.

Lemma plain_part_inv (c : string) :
  plain_part c = true ->
  String.eqb c "" = false /\ String.eqb c "." = false
  /\ contains "/" c = false.
Proof.
  unfold plain_part. intros H.
  apply andb_true_iff in H as [H Hs]. apply andb_true_iff in H as [He Hd].
  now apply negb_true_iff in He, Hd, Hs.
Qed.

Lemma split_join (c : string) (l : list string) :
  forallb plain_part (c :: l) = true ->
  split "/" (join "/" (c :: l)) = c :: l.
Proof.
  revert c. induction l as [|d l IH]; intros c H.
  - cbn [forallb] in H. apply andb_true_iff in H as [Hc _].
    apply plain_part_inv in Hc as (_ & _ & Hc). cbn. now apply split_plain.
  - cbn [forallb] in H. apply andb_true_iff in H as [Hc Hl].
    apply plain_part_inv in Hc as (_ & _ & Hc).
    change (join "/" (c :: d :: l))
      with (c ++ String "/" (join "/" (d :: l))).
    rewrite split_plain_slash by assumption. f_equal. now apply IH.
Qed.

Lemma filter_part_kept (l : list string) :
  forallb plain_part l = true -> filter part_kept l = l.
Proof.
  induction l as [|c l IH]; [reflexivity|].
  cbn [forallb filter]. intros H. apply andb_true_iff in H as [Hc Hl].
  apply plain_part_inv in Hc as (He & Hd & _).
  replace (part_kept c) with true by (unfold part_kept; now rewrite He, Hd).
  now rewrite IH.
Qed.

Lemma of_string_join (c : string) (l : list string) :
  forallb plain_part (c :: l) = true ->
  of_string (join "/" (c :: l)) = mkPath false (c :: l).
Proof.
  intros H. unfold of_string.
  rewrite split_join, filter_part_kept by assumption. f_equal.
  cbn [forallb] in H. apply andb_true_iff in H as [Hc _].
  apply plain_part_inv in Hc as (He & _ & Hs).
  destruct c as [|x c]; [discriminate He|].
  apply contains_slash_cons in Hs as [Hx _].
  assert (Hjoin : exists t, join "/" (String x c :: l) = String x t)
    by (destruct l; eexists; reflexivity).
  destruct Hjoin as (t & ->). cbn [startswith].
  now rewrite Ascii.eqb_sym, Hx.
Qed.

(** Printing a path and parsing the text again gives the path back, when
    its components are not empty, not [.] and hold no [/] (a [..] is
    kept). *)
Theorem path_print_parse (p : Path) :
  forallb plain_part (parts p) = true -> of_string (to_string p) = p.
Proof.
  destruct p as [abs l]. cbn [parts]. intros H. unfold to_string.
  cbn [absolute parts]. destruct abs.
  - destruct l as [|c l]; [reflexivity|].
    unfold of_string.
    change (split "/" ("/" ++ join "/" (c :: l)))
      with ("" :: split "/" (join "/" (c :: l))).
    rewrite split_join by assumption.
    change (filter part_kept ("" :: c :: l))
      with (filter part_kept (c :: l)).
    now rewrite filter_part_kept.
  - destruct l as [|c l]; [reflexivity|]. now apply of_string_join.
Qed.

Lemma path_print_parse_witness :
  of_string (to_string (mkPath true [".."; "skills"; "my-skill"]))
  = mkPath true [".."; "skills"; "my-skill"].
Proof. apply path_print_parse. reflexivity. Defined.

(** Joining a relative path to a base and taking it relative to the base
    again gives it back; [format_path] then prints exactly it, and prints a
    path that is not under the base in full. *)
Theorem relative_to_div (base : Path) (rel : list string) :
  relative_to (div base (mkPath false rel)) base = Some (mkPath false rel)
  /\ format_path (div base (mkPath false rel)) (Some base)
     = to_string (mkPath false rel)
  /\ (forall p, relative_to p base = None ->
                format_path p (Some base) = to_string p).
Proof.
  assert (H : relative_to (div base (mkPath false rel)) base
              = Some (mkPath false rel)).
  { unfold relative_to, div. cbn [absolute parts].
    rewrite Bool.eqb_reflx, strip_prefix_app. reflexivity. }
  split; [exact H|]. split.
  - unfold format_path. now rewrite H.
  - intros p Hp. unfold format_path. now rewrite Hp.
Qed.




(** ** The file collector, continued *)







(** ** The two packagers *)

















(** ** The packager *)

Lemma answer_bind_ok {A B} (m : M A) (f : A -> M B) (w : world) (b : B) :
  answer (bind m f) w = Ok b ->
  exists a, answer m w = Ok a /\ answer (f a) w = Ok b.
Proof.
  rewrite answer_bind. destruct (answer m w) as [a|e]; [eauto|discriminate].
Qed.

(** With validation requested, a skill whose lenient validation reports
    an error is not packaged: the packager raises a [SkillError] that
    carries the formatted result and changes nothing on disk, whatever
    the format and the output path. *)
Theorem package_skill_refuses_invalid yaml repr (w : world)
  (skill_path skill_file : Path) (output : option Path) (format : string)
  (include_manifest : bool) (result : ValidationResult) :
  answer (find_skill_file skill_path) w = Ok (Some skill_file) ->
  answer (validate_skill yaml repr (parent skill_file) false) w = Ok result ->
  errors result <> [] ->
  let run := package_skill yaml repr skill_path output format true
               include_manifest in
  answer run w
  = Raise (SkillError ("Skill validation failed:" ++ nl ++ result_str result
                       ++ nl ++ nl ++ "Use --no-validate to skip validation"))
  /\ no_output (trace run w).
Proof.
  intros Hfind Hvalidate Herrors run. subst run.
  assert (Hinvalid : is_valid result = false).
  { unfold is_valid. destruct (errors result); [congruence|reflexivity]. }
  unfold package_skill. rewrite answer_bind, trace_bind, Hfind.
  rewrite answer_bind, trace_bind.
  rewrite answer_bind, trace_bind, Hvalidate, Hinvalid. cbn [negb].
  split; [reflexivity|].
  apply no_output_app; [apply quiet_find_skill_file|].
  apply no_output_app; [|reflexivity].
  apply no_output_app; [apply quiet_validate_skill | reflexivity].
Qed.

Lemma package_skill_refuses_invalid_witness :
  let run := package_skill Sample.yaml_safe_load Sample.py_repr_container
               Sample.skill_dir None "zip" true true in
  answer run Sample.missing_name
  = Raise (SkillError
             ("Skill validation failed:" ++ nl
              ++ result_str
                   (mkResult ["Required field " ++ dq ++ "name" ++ dq
                              ++ " missing from frontmatter"] [])
              ++ nl ++ nl ++ "Use --no-validate to skip validation"))
  /\ no_output (trace run Sample.missing_name).
Proof.
  apply (package_skill_refuses_invalid Sample.yaml_safe_load
           Sample.py_repr_container Sample.missing_name Sample.skill_dir
           (mkPath true ["skill"; "SKILL.md"]) None "zip" true
           (mkResult ["Required field " ++ dq ++ "name" ++ dq
                      ++ " missing from frontmatter"] [])).
  - reflexivity.
  - reflexivity.
  - discriminate.
Defined.

(** When [package_skill] returns a path, the format was one of the two
    supported ones, the skill passed the lenient validation if validation
    was requested, and the path is the output path that was given or, by
    default, the one made from the skill name: the [name] of the header,
    else the name of the skill directory, with [.zip] added for an
    archive. *)
Theorem package_skill_returns yaml repr (w : world) (skill_path : Path)
  (output : option Path) (format : string)
  (validate include_manifest : bool) (returned : Path) :
  answer (package_skill yaml repr skill_path output format validate
            include_manifest) w = Ok returned ->
  exists skill_file content parsed,
    answer (find_skill_file skill_path) w = Ok (Some skill_file)
    /\ answer (read_file_safe skill_file default_max_size) w = Ok content
    /\ parse_skill_file yaml content = Ok parsed
    /\ (format = "zip" \/ format = "directory")
    /\ (validate = true ->
        exists result,
          answer (validate_skill yaml repr (parent skill_file) false) w
          = Ok result /\ errors result = [])
    /\ let skill_name :=
         get "name" (VStr (name (parent skill_file))) (fst parsed) in
       match output with
       | Some o => returned = o
       | None =>
           if String.eqb format "zip" then
             returned = of_string (py_str repr skill_name ++ ".zip")
           else path_of_value skill_name = Ok returned
       end.
Proof.
  unfold package_skill. intros H.
  apply answer_bind_ok in H as ([skill_file|] & Hfind & H);
    [|discriminate H].
  apply answer_bind_ok in H as ([] & Hvalidate & H).
  apply answer_bind_ok in H as (content & Hread & H).
  apply answer_bind_ok in H as (parsed & Hparse & H).
  apply answer_bind_ok in H as (manifest & _ & H).
  apply answer_bind_ok in H as (out & Hout & H).
  exists skill_file, content, parsed.
  split; [exact Hfind|]. split; [exact Hread|]. split; [exact Hparse|].
  assert (Hreturned : (format = "zip" \/ format = "directory")
                      /\ returned = out).
  { destruct (String.eqb format "zip") eqn:Hzip.
    - apply String.eqb_eq in Hzip.
      apply answer_bind_ok in H as (u & _ & H). injection H as <-. auto.
    - destruct (String.eqb format "directory") eqn:Hdir; [|discriminate H].
      apply String.eqb_eq in Hdir.
      apply answer_bind_ok in H as (u & _ & H). injection H as <-. auto. }
  destruct Hreturned as [Hformat ->]. split; [exact Hformat|]. split.
  - intros ->. apply answer_bind_ok in Hvalidate as (result & Hr & Hv).
    exists result. split; [exact Hr|].
    unfold is_valid in Hv. destruct (errors result); [reflexivity|].
    discriminate Hv.
  - cbv zeta. destruct output as [o|].
    + now injection Hout as <-.
    + destruct (String.eqb format "zip").
      * now injection Hout as <-.
      * exact Hout.
Qed.

Lemma package_skill_returns_witness :
  exists skill_file content parsed,
    answer (find_skill_file Sample.skill_dir) Sample.plain
    = Ok (Some skill_file)
    /\ answer (read_file_safe skill_file default_max_size) Sample.plain
       = Ok content
    /\ parse_skill_file Sample.yaml_safe_load content = Ok parsed
    /\ ("zip" = "zip" \/ "zip" = "directory")
    /\ (true = true ->
        exists result,
          answer (validate_skill Sample.yaml_safe_load
                    Sample.py_repr_container (parent skill_file) false)
                 Sample.plain = Ok result /\ errors result = [])
    /\ mkPath false ["demo-skill.zip"]
       = of_string
           (py_str Sample.py_repr_container
              (get "name" (VStr (name (parent skill_file))) (fst parsed))
            ++ ".zip").
Proof.
  apply (package_skill_returns Sample.yaml_safe_load
           Sample.py_repr_container Sample.plain Sample.skill_dir None "zip"
           true true (mkPath false ["demo-skill.zip"])).
  reflexivity.
Defined.

(** ** The manifest *)

Lemma answer_any_iterdir (p : Path) (w : world) :
  answer (any_iterdir p) w =
  match os_stat w p with
  | Some (Dir _ es) => Ok (match es with [] => false | _ => true end)
  | Some _ =>
      Raise (OSError ("[Errno 20] Not a directory: '" ++ to_string p ++ "'"))
  | None => Raise (not_found p)
  end.
Proof.
  unfold any_iterdir. rewrite answer_ask_bind, answer_tell_bind.
  now destruct (os_stat w p) as [[]|].
Qed.

Lemma answer_has_entries (dir : Path) (w : world) :
  answer (has_entries dir) w =
  match os_stat w dir with
  | None => Ok false
  | Some (Dir _ es) => Ok (match es with [] => false | _ => true end)
  | Some _ =>
      Raise (OSError ("[Errno 20] Not a directory: '" ++ to_string dir
                      ++ "'"))
  end.
Proof.
  unfold has_entries. rewrite answer_bind, answer_exists.
  unfold stat_exists. destruct (os_stat w dir) as [n|] eqn:E;
    [|reflexivity].
  rewrite answer_any_iterdir, E. now destruct n.
Qed.

(** The manifest carries the name and the description of the header, the
    empty string standing for a missing one; [tools] and [model] are in
    the manifest exactly when they are in the header, with the same value;
    the two flags say whether the scripts and the references directory
    exist and have an entry. A scripts or references path that exists
    without being a directory makes [create_manifest] raise. *)
Theorem create_manifest_fields (skill_dir : Path) (frontmatter : dict)
  (w : world) :
  (forall manifest,
      answer (create_manifest skill_dir frontmatter) w = Ok manifest ->
      lookup "name" manifest = Some (get "name" (VStr "") frontmatter)
      /\ lookup "description" manifest
         = Some (get "description" (VStr "") frontmatter)
      /\ lookup "packaged_at" manifest
         = Some (VStr (utcnow_isoformat w ++ "Z"))
      /\ lookup "tools" manifest = lookup "tools" frontmatter
      /\ lookup "model" manifest = lookup "model" frontmatter
      /\ lookup "includes_scripts" manifest
         = Some (VBool (match os_stat w (child skill_dir "scripts") with
                        | Some (Dir _ (_ :: _)) => true
                        | _ => false
                        end))
      /\ lookup "includes_references" manifest
         = Some (VBool (match os_stat w (child skill_dir "references") with
                        | Some (Dir _ (_ :: _)) => true
                        | _ => false
                        end)))
  /\ (is_file_node (os_stat w (child skill_dir "scripts")) = true ->
      exists msg,
        answer (create_manifest skill_dir frontmatter) w
        = Raise (OSError msg)).
Proof.
  unfold create_manifest.
  rewrite answer_tell_bind, answer_ask_bind, answer_bind,
    answer_has_entries.
  split.
  - intros manifest.
    destruct (os_stat w (child skill_dir "scripts")) as [[| m1 es1 | |]|];
      try discriminate;
      (rewrite answer_bind, answer_has_entries;
       destruct (os_stat w (child skill_dir "references"))
         as [[| m2 es2 | |]|]; try discriminate;
       intros [= <-]; unfold optional_field;
       destruct (lookup "tools" frontmatter);
       destruct (lookup "model" frontmatter);
       repeat split; try reflexivity;
       try (destruct es1; reflexivity);
       try (destruct es2; reflexivity)).
  - destruct (os_stat w (child skill_dir "scripts")) as [[]|];
      try discriminate.
    intros _. eexists. reflexivity.
Qed.

Lemma create_manifest_fields_witness :
  exists msg,
    answer (create_manifest Sample.skill_dir [])
           (Sample.world_of [("scripts", Sample.text_file "not a directory")])
    = Raise (OSError msg).
Proof.
  apply (create_manifest_fields Sample.skill_dir []
           (Sample.world_of
              [("scripts", Sample.text_file "not a directory")])).
  reflexivity.
Defined.

(** ** The validator's entry point *)

Lemma answer_main yaml repr (args : arguments) (w : world) :
  exists printed,
    answer (main yaml repr args) w =
    Ok (match answer (validate_skill yaml repr (arg_skill_path args)
                        (arg_strict args)) w with
        | Raise _ => 2%Z
        | Ok result =>
            match errors result with
            | _ :: _ => 1%Z
            | [] =>
                if (match warnings result with [] => false | _ => true end)
                   && negb (arg_quiet args) && arg_strict args
                then 1%Z else 0%Z
            end
        end, printed).
Proof.
  unfold main. rewrite answer_bind, answer_attempt.
  destruct (answer (validate_skill yaml repr (arg_skill_path args)
                      (arg_strict args)) w) as [result|e];
    [|eexists; reflexivity].
  destruct (errors result); [|eexists; reflexivity].
  destruct (warnings result); cbn [andb];
    destruct (arg_quiet args); cbn [negb andb];
    destruct (arg_strict args); eexists; reflexivity.
Qed.




(** The strict mode never turns a failure into a success: for the same
    path and the same other options, the exit code of the run with
    [--strict] is at least the exit code of the run without it. *)
Theorem main_strict_exit_code yaml repr (skill_path : Path)
  (quiet verbose : bool) (w : world) (lenient strict : Z)
  (printed printed' : list (stream * string)) :
  answer (main yaml repr (mkArguments skill_path false quiet verbose)) w
  = Ok (lenient, printed) ->
  answer (main yaml repr (mkArguments skill_path true quiet verbose)) w
  = Ok (strict, printed') ->
  (lenient <= strict)%Z.
Proof.
  destruct (answer_main yaml repr
              (mkArguments skill_path false quiet verbose) w) as (p1 & ->).
  destruct (answer_main yaml repr
              (mkArguments skill_path true quiet verbose) w) as (p2 & ->).
  cbn [arg_skill_path arg_strict arg_quiet].
  pose proof (validate_skill_modes yaml repr skill_path w) as H.
  destruct (answer (validate_skill yaml repr skill_path false) w)
    as [rl|e].
  - destruct H as (rs & moved & -> & _ & He & _).
    intros [= <- _] [= <- _]. rewrite He.
    destruct (errors rl) as [|m es]; cbn [app].
    + rewrite andb_false_r.
      destruct moved; [|lia].
      destruct (_ && _ && true); lia.
    + lia.
  - rewrite H. intros [= <- _] [= <- _]. lia.
Qed.

Lemma main_strict_exit_code_witness : (0 <= 1)%Z.
Proof.
  apply (main_strict_exit_code Sample.yaml_safe_load
           Sample.py_repr_container Sample.skill_dir false false
           Sample.extra_field 0%Z 1%Z
           [(Stdout, result_str
                       (mkResult [] ["Unexpected frontmatter fields: author"]));
            (Stdout, passed_with_warnings)]
           [(Stdout, result_str
                       (mkResult ["Unexpected frontmatter fields: author"]
                                 []))]);
    reflexivity.
Defined.

(** ** The printed result *)

(** The formatted result is the passed line exactly when there is nothing
    to report; otherwise it opens with the errors section when there is an
    error, and with the warnings section when there are only warnings. *)
Theorem result_str_sections (r : ValidationResult) :
  (result_str r = "✅ Validation passed"
   <-> errors r = [] /\ warnings r = [])
  /\ (errors r <> [] -> startswith "❌ Errors:" (result_str r) = true)
  /\ (errors r = [] -> warnings r <> [] ->
      startswith "⚠️  Warnings:" (result_str r) = true).
Proof.
  destruct r as [es ws]. unfold result_str. cbn [errors warnings].
  split; [split|split].
  - destruct es as [|e es]; destruct ws as [|x ws]; auto;
      intros H; exfalso; unfold join in H; cbn in H; discriminate H.
  - now intros [-> ->].
  - destruct es as [|e es]; [congruence|]. intros _.
    destruct ws as [|x ws]; unfold join; cbn [String.concat map app];
      destruct es; reflexivity.
  - intros -> Hws. destruct ws as [|x ws]; [congruence|].
    unfold join; cbn [String.concat map app]. destruct ws; reflexivity.
Qed.

Lemma result_str_sections_witness :
  startswith "❌ Errors:"
    (result_str (mkResult ["Invalid skill name: Skill name is required"]
                          ["Missing recommended section: concrete examples"]))
  = true.
Proof.
  apply (result_str_sections
           (mkResult ["Invalid skill name: Skill name is required"]
                     ["Missing recommended section: concrete examples"])).
  discriminate.
Defined.
